(** * tools/validate_data.py: the repo-shaped JSON validator

    A shallow embedding of the validator script and the properties its
    specification states about it.  The script walks the working directory,
    parses every [.json] file it does not skip, and checks the parsed document
    against rules chosen by the file's path.  Findings are appended to one
    global list [errors]; the exit status depends on that list.

    Conventions of the embedding:
    - a parsed document is a [json] value; Python's [None] is [JNull], which
      is what [json.load] returns for the JSON literal [null];
    - paths are POSIX strings ([os.path.sep] is "/"), and the functions of
      [os.path] are written out from CPython's [posixpath];
    - the global list [errors] is threaded through a small state-and-exception
      monad [M]; an uncaught Python exception is the [Raise] outcome;
    - a [str] is carried by its bytes in UTF-8, and [print] writes to a
      standard output with that encoding, raising on a text that holds a
      surrogate. *)

From Stdlib Require Import String Ascii List Bool ZArith Arith Lia.
From Stdlib Require Import DecimalString.
Import ListNotations.

Local Open Scope string_scope.
Local Open Scope list_scope.

Set Warnings "-register-all".

(** ** Parsed documents *)

(** What [json.load] returns.  A Python [float] is carried by its [repr],
    the only thing the validator can observe of it.  A [dict] is the list of
    its items in insertion order; the keys of a parsed object are distinct,
    and lookups below take the first item with the key. *)
Inductive json : Type :=
| JNull
| JBool (b : bool)
| JInt (z : Z)
| JFloat (repr : string)
| JString (s : string)
| JArray (items : list json)
| JObject (members : list (string * json)).

(** [isinstance(obj, dict)] and [obj is None]. *)
Definition isinstance_dict (obj : json) : bool :=
  match obj with JObject _ => true | _ => false end.

Definition is_None (obj : json) : bool :=
  match obj with JNull => true | _ => false end.

(** ** Python [str] operations *)

Module PyStr.

(** [s.startswith(pre)] *)
Fixpoint startswith (s pre : string) : bool :=
  match pre, s with
  | EmptyString, _ => true
  | String _ _, EmptyString => false
  | String a pre', String b s' => Ascii.eqb a b && startswith s' pre'
  end.

(** [sub in s]: some suffix of [s] starts with [sub]. *)
Fixpoint contains (sub s : string) : bool :=
  startswith s sub ||
  match s with
  | EmptyString => false
  | String _ s' => contains sub s'
  end.

(** [s[i:]] for [0 <= i]. *)
Fixpoint drop (i : nat) (s : string) : string :=
  match i, s with
  | O, _ => s
  | S _, EmptyString => EmptyString
  | S i', String _ s' => drop i' s'
  end.

(** [s[:i]] for [0 <= i]. *)
Fixpoint take (i : nat) (s : string) : string :=
  match i, s with
  | O, _ => EmptyString
  | S _, EmptyString => EmptyString
  | S i', String a s' => String a (take i' s')
  end.

(** [s.endswith(suf)] *)
Definition endswith (s suf : string) : bool :=
  (String.length suf <=? String.length s)%nat &&
  String.eqb (drop (String.length s - String.length suf) s) suf.

(** [s.rfind(c) + 1] for a one-character [c]: one past the last
    occurrence, 0 when there is none. *)
Fixpoint rfind_succ_from (c : ascii) (s : string) (i last : nat) : nat :=
  match s with
  | EmptyString => last
  | String a s' =>
      rfind_succ_from c s' (S i) (if Ascii.eqb a c then S i else last)
  end.

Definition rfind_succ (c : ascii) (s : string) : nat :=
  rfind_succ_from c s 0 0.

(** [s.rstrip(c)] for a one-character [c]. *)
Fixpoint rstrip (c : ascii) (s : string) : string :=
  match s with
  | EmptyString => EmptyString
  | String a s' =>
      match rstrip c s' with
      | EmptyString => if Ascii.eqb a c then EmptyString else String a EmptyString
      | r => String a r
      end
  end.

(** [s == c * len(s)] *)
Fixpoint all_char (c : ascii) (s : string) : bool :=
  match s with
  | EmptyString => true
  | String a s' => Ascii.eqb a c && all_char c s'
  end.

(** [s.split(c)] for a one-character separator. *)
Fixpoint split (c : ascii) (s : string) : list string :=
  match s with
  | EmptyString => [EmptyString]
  | String a s' =>
      if Ascii.eqb a c then EmptyString :: split c s'
      else match split c s' with
           | [] => [String a EmptyString]
           | w :: ws => String a w :: ws
           end
  end.

(** [sep.join(parts)] *)
Fixpoint join (sep : string) (parts : list string) : string :=
  match parts with
  | [] => EmptyString
  | [p] => p
  | p :: ps => (p ++ sep ++ join sep ps)%string
  end.

(** [str(n)] for a non-negative machine-independent integer. *)
Definition of_nat (n : nat) : string :=
  NilZero.string_of_uint (Nat.to_uint n).

(** [str(z)] for an [int]. *)
Definition of_Z (z : Z) : string :=
  NilZero.string_of_int (Z.to_int z).

End PyStr.

(** ** [os.path] on POSIX *)

Module OsPath.

Definition sep : string := "/".
Definition sep_char : ascii := "/"%char.

(** [posixpath.basename] *)
Definition basename (p : string) : string :=
  PyStr.drop (PyStr.rfind_succ sep_char p) p.

(** [posixpath.dirname] *)
Definition dirname (p : string) : string :=
  let head := PyStr.take (PyStr.rfind_succ sep_char p) p in
  if negb (String.eqb head "") && negb (PyStr.all_char sep_char head)
  then PyStr.rstrip sep_char head
  else head.

(** [posixpath.join] with one component after the first *)
Definition join (a b : string) : string :=
  if PyStr.startswith b sep then b
  else if String.eqb a "" || PyStr.endswith a sep then (a ++ b)%string
  else (a ++ sep ++ b)%string.

(** The loop of [posixpath.normpath] over the split components;
    [new_comps] is kept reversed, its head being [new_comps[-1]]. *)
Fixpoint normpath_comps (initial_slashes : nat) (comps new_comps : list string)
  : list string :=
  match comps with
  | [] => List.rev new_comps
  | comp :: rest =>
      if String.eqb comp "" || String.eqb comp "." then
        normpath_comps initial_slashes rest new_comps
      else if negb (String.eqb comp "..")
              || ((initial_slashes =? 0)%nat && match new_comps with [] => true | _ => false end)
              || match new_comps with last :: _ => String.eqb last ".." | [] => false end
      then normpath_comps initial_slashes rest (comp :: new_comps)
      else match new_comps with
           | _ :: popped => normpath_comps initial_slashes rest popped
           | [] => normpath_comps initial_slashes rest new_comps
           end
  end.

(** [posixpath.normpath] *)
Definition normpath (path : string) : string :=
  if String.eqb path "" then "."
  else
    let initial_slashes :=
      if PyStr.startswith path sep then
        if PyStr.startswith path "//" && negb (PyStr.startswith path "///")
        then 2%nat else 1%nat
      else 0%nat in
    let comps := normpath_comps initial_slashes (PyStr.split sep_char path) [] in
    let joined := PyStr.join sep comps in
    let result :=
      match initial_slashes with
      | 0%nat => joined
      | 1%nat => (sep ++ joined)%string
      | _ => (sep ++ sep ++ joined)%string
      end in
    if String.eqb result "" then "." else result.

End OsPath.

(** ** Path predicates of the script *)

(** [is_publication_manifest(path)] *)
Definition is_publication_manifest (path : string) : bool :=
  String.eqb (OsPath.basename path) "manifest.json" &&
  PyStr.contains (OsPath.sep ++ "publications" ++ OsPath.sep)%string path.

(** [is_dialogues(path)] *)
Definition is_dialogues (path : string) : bool :=
  String.eqb (OsPath.basename path) "dialogues.json" &&
  PyStr.contains (OsPath.sep ++ "segments" ++ OsPath.sep)%string path.

(** [is_recent(path)] *)
Definition is_recent (path : string) : bool :=
  PyStr.endswith (OsPath.normpath path) (OsPath.join "publications" "recent.json").

(** The test of the last [elif]: [os.path.sep + "publications" + os.path.sep in path]. *)
Definition in_publications (path : string) : bool :=
  PyStr.contains (OsPath.sep ++ "publications" ++ OsPath.sep)%string path.

(** ** Dictionary access *)

(** [k in obj] for a [dict]; only evaluated behind [isinstance(obj, dict)]. *)
Definition dict_contains (k : string) (obj : json) : bool :=
  match obj with
  | JObject members => existsb (fun kv => String.eqb (fst kv) k) members
  | _ => false
  end.

(** [obj.get(k)]: the value stored under [k], [None] when there is none. *)
Definition dict_get (k : string) (obj : json) : json :=
  match obj with
  | JObject members =>
      match find (fun kv => String.eqb (fst kv) k) members with
      | Some kv => snd kv
      | None => JNull
      end
  | _ => JNull
  end.

(** The loop shared by [get_identifier_from] and [get_author_from]:
    return the value of the first candidate key that [obj] holds,
    [None] after the loop. *)
Fixpoint first_key_value (keys : list string) (obj : json) : json :=
  match keys with
  | [] => JNull
  | k :: keys' =>
      if isinstance_dict obj && dict_contains k obj then dict_get k obj
      else first_key_value keys' obj
  end.

Definition identifier_keys : list string :=
  ["identifier"; "id"; "publication_identifier"].

Definition author_keys : list string :=
  ["author"; "author_name"; "author_names"].

(** [get_identifier_from(obj)] *)
Definition get_identifier_from (obj : json) : json :=
  first_key_value identifier_keys obj.

(** [get_author_from(obj)] *)
Definition get_author_from (obj : json) : json :=
  first_key_value author_keys obj.

(** ** Diagnostics *)

(** One constructor per [errors.append] of the script, holding the values its
    f-string interpolates; [render] below gives the appended text. *)
Inductive diag : Type :=
| JsonParseError (path e : string)
| MissingManifestField (path r : string)
| ParentDirMismatch (path parent_dir : string) (identifier : json)
| ManifestMissingIdentifier (path : string)
| DialoguesNotArray (path : string)
| DialogueEntryNotObject (path : string) (i : nat)
| MissingDialogueField (path : string) (i : nat) (rf : string)
| RecentNotArray (path : string)
| RecentEntryNotObject (path : string) (i : nat)
| RecentMissingIdentifier (path : string) (i : nat)
| RecentMissingAuthor (path : string) (i : nat)
| GenericMissingIdentifier (path : string).

(** The path a diagnostic is about. *)
Definition diag_path (d : diag) : string :=
  match d with
  | JsonParseError path _ | MissingManifestField path _
  | ParentDirMismatch path _ _ | ManifestMissingIdentifier path
  | DialoguesNotArray path | DialogueEntryNotObject path _
  | MissingDialogueField path _ _ | RecentNotArray path
  | RecentEntryNotObject path _ | RecentMissingIdentifier path _
  | RecentMissingAuthor path _ | GenericMissingIdentifier path => path
  end.

(** ** The accumulator and uncaught exceptions *)

Inductive exn : Type := TypeError.

(** Outcome of a piece of the script started with some [errors]: it runs to
    its end, or an exception leaves it; either way [errors] is what the
    global list holds at that point. *)
Inductive result (A : Type) : Type :=
| Ok (a : A) (errors : list diag)
| Raise (e : exn) (errors : list diag).
Arguments Ok {A} a errors.
Arguments Raise {A} e errors.

Definition M (A : Type) : Type := list diag -> result A.

Definition ret {A} (a : A) : M A := fun errors => Ok a errors.

Definition bind {A B} (m : M A) (f : A -> M B) : M B :=
  fun errors =>
    match m errors with
    | Ok a errors' => f a errors'
    | Raise e errors' => Raise e errors'
    end.

Definition raise {A} (e : exn) : M A := fun errors => Raise e errors.

(** [errors.append(d)] *)
Definition append (d : diag) : M unit := fun errors => Ok tt (errors ++ [d]).

Notation "x <- m ;; k" := (bind m (fun x => k))
  (at level 61, m at next level, right associativity).
Notation "m ;; k" := (bind m (fun _ => k))
  (at level 61, right associativity).

(** [for x in xs: body(x)] *)
Fixpoint for_each {A} (xs : list A) (body : A -> M unit) : M unit :=
  match xs with
  | [] => ret tt
  | x :: xs' => body x ;; for_each xs' body
  end.

(** [enumerate(xs)] counted from [i] *)
Fixpoint enumerate_from {A} (i : nat) (xs : list A) : list (nat * A) :=
  match xs with
  | [] => []
  | x :: xs' => (i, x) :: enumerate_from (S i) xs'
  end.

Definition enumerate {A} (xs : list A) : list (nat * A) := enumerate_from 0 xs.

(** What a [result] holds in [errors]. *)
Definition errors_of {A} (r : result A) : list diag :=
  match r with Ok _ errors | Raise _ errors => errors end.

Definition completes {A} (r : result A) : bool :=
  match r with Ok _ _ => true | Raise _ _ => false end.

(** ** Python's [in] on a parsed document *)

(** [x == r] for a [str] [r]: only an equal [str] is equal to it. *)
Definition eq_str (r : string) (x : json) : bool :=
  match x with JString s => String.eqb s r | _ => false end.

(** [r in data] for a [str] [r]: key membership on a [dict], element
    membership on a [list], substring on a [str]; [int], [float], [bool] and
    [None] are not containers and the test raises [TypeError]. *)
Definition py_in (r : string) (data : json) : M bool :=
  match data with
  | JObject _ => ret (dict_contains r data)
  | JArray items => ret (existsb (eq_str r) items)
  | JString s => ret (PyStr.contains r s)
  | JNull | JBool _ | JInt _ | JFloat _ => raise TypeError
  end.

(** ** The validator proper *)

Section Validator.

(** Python's [repr] on a [str] (quoting and escapes follow the Unicode
    database); the validator only reaches it through [str] of a [list] or
    [dict] identifier. *)
Variable repr_str : string -> string.

(** [repr(v)] of a parsed value. *)
Fixpoint py_repr (v : json) : string :=
  match v with
  | JNull => "None"
  | JBool true => "True"
  | JBool false => "False"
  | JInt z => PyStr.of_Z z
  | JFloat r => r
  | JString s => repr_str s
  | JArray items => ("[" ++ PyStr.join ", " (map py_repr items) ++ "]")%string
  | JObject members =>
      ("{" ++ PyStr.join ", "
               (map (fun kv => (repr_str (fst kv) ++ ": " ++ py_repr (snd kv))%string)
                    members)
           ++ "}")%string
  end.

(** [str(v)] *)
Definition py_str (v : json) : string :=
  match v with
  | JString s => s
  | _ => py_repr v
  end.

(** The [manifest.json] branch. *)
Definition check_manifest (path : string) (data : json) : M unit :=
  let required := ["identifier"; "title"] in
  for_each required (fun r =>
    present <- py_in r data ;;
    if negb present then append (MissingManifestField path r) else ret tt) ;;
  let parent_dir := OsPath.basename (OsPath.dirname path) in
  let identifier := get_identifier_from data in
  if negb (is_None identifier)
     && negb (String.eqb parent_dir (py_str identifier))
  then append (ParentDirMismatch path parent_dir identifier)
  else if is_None identifier
  then append (ManifestMissingIdentifier path)
  else ret tt.

(** The [dialogues.json] branch. *)
Definition check_dialogues (path : string) (data : json) : M unit :=
  match data with
  | JArray items =>
      for_each (enumerate items) (fun '(i, item) =>
        if negb (isinstance_dict item)
        then append (DialogueEntryNotObject path i)
        else
          for_each ["character_identifier"; "ordinal"; "text"] (fun rf =>
            present <- py_in rf item ;;
            if negb present then append (MissingDialogueField path i rf)
            else ret tt))
  | _ => append (DialoguesNotArray path)
  end.

(** The [recent.json] branch. *)
Definition check_recent (path : string) (data : json) : M unit :=
  match data with
  | JArray items =>
      for_each (enumerate items) (fun '(i, item) =>
        if negb (isinstance_dict item)
        then append (RecentEntryNotObject path i)
        else
          (if is_None (get_identifier_from item)
           then append (RecentMissingIdentifier path i) else ret tt) ;;
          (if is_None (get_author_from item)
           then append (RecentMissingAuthor path i) else ret tt))
  | _ => append (RecentNotArray path)
  end.

(** The branch for any other JSON file below a [publications] directory. *)
Definition check_generic (path : string) (data : json) : M unit :=
  if isinstance_dict data then
    if is_None (get_identifier_from data)
    then append (GenericMissingIdentifier path)
    else ret tt
  else ret tt.

(** The [if]/[elif] chain applied to a parsed file. *)
Definition validate (path : string) (data : json) : M unit :=
  if is_publication_manifest path then check_manifest path data
  else if is_dialogues path then check_dialogues path data
  else if is_recent path then check_recent path data
  else if in_publications path then check_generic path data
  else ret tt.

(** ** The file tree and [os.walk] *)

(** What [read_json(path)] does on a file: it returns the parsed document,
    or raises an [Exception] whose text is [e]. *)
Inductive read_result : Type :=
| Parsed (data : json)
| Failed (e : string).

(** A directory lists its entries in the order [os.scandir] yields them. *)
Inductive node : Type :=
| File (name : string) (content : read_result)
| Dir (name : string) (entries : list node).

Definition skip_dirs : list string :=
  [".git"; ".github"; "node_modules"; "__pycache__"].

(** [d in skip_dirs] *)
Definition in_skip_dirs (d : string) : bool :=
  existsb (String.eqb d) skip_dirs.

(** The body of [for fname in files]. *)
Definition visit_file (root fname : string) (content : read_result) : M unit :=
  if negb (PyStr.endswith fname ".json") then ret tt
  else if String.eqb fname "meta.json" || PyStr.startswith fname "package"
  then ret tt
  else
    let path := OsPath.join root fname in
    match content with
    | Failed e => append (JsonParseError path e)
    | Parsed data => validate path data
    end.

(** [for fname in files]: the files among the entries of one directory. *)
Fixpoint visit_files (root : string) (entries : list node) : M unit :=
  match entries with
  | [] => ret tt
  | File fname content :: rest =>
      visit_file root fname content ;; visit_files root rest
  | Dir _ _ :: rest => visit_files root rest
  end.

(** The descent of [os.walk] below [root]: in order, into each
    sub-directory that the loop body left in [dirs], that is each one
    whose name is not in [skip_dirs]; [walk_dir] walks one of them. *)
Fixpoint descend (walk_dir : string -> node -> M unit)
                 (root : string) (entries : list node) : M unit :=
  match entries with
  | [] => ret tt
  | File _ _ :: rest => descend walk_dir root rest
  | (Dir d _ as sub) :: rest =>
      if in_skip_dirs d then descend walk_dir root rest
      else walk_dir (OsPath.join root d) sub ;; descend walk_dir root rest
  end.

(** [for root, dirs, files in os.walk(top, topdown=True)] with the loop
    body of the script: the body runs on the files of [top], then the walk
    goes on below.  [root] is the path of [top]. *)
Fixpoint walk (root : string) (top : node) {struct top} : M unit :=
  match top with
  | File _ _ => ret tt
  | Dir _ entries =>
      visit_files root entries ;; descend walk root entries
  end.

End Validator.

(** ** Messages and the final report *)

Section Report.

Variable repr_str : string -> string.

(** The text each [errors.append] builds. *)
Definition render (d : diag) : string :=
  match d with
  | JsonParseError path e =>
      "🔥 " ++ path ++ ": JSON parse error: " ++ e
  | MissingManifestField path r =>
      "❌ " ++ path ++ ": Missing required manifest field '" ++ r ++ "'"
  | ParentDirMismatch path parent_dir identifier =>
      "⚠️ " ++ path ++ ": Parent dir '" ++ parent_dir ++ "' != identifier '"
        ++ py_str repr_str identifier ++ "'"
  | ManifestMissingIdentifier path =>
      "❌ " ++ path ++ ": manifest missing identifier field"
  | DialoguesNotArray path =>
      "❌ " ++ path ++ ": dialogues file should be a JSON array"
  | DialogueEntryNotObject path i =>
      "❌ " ++ path ++ "[" ++ PyStr.of_nat i ++ "]: dialogue entry not an object"
  | MissingDialogueField path i rf =>
      "❌ " ++ path ++ "[" ++ PyStr.of_nat i
        ++ "]: Missing required dialogue field '" ++ rf ++ "'"
  | RecentNotArray path =>
      "❌ " ++ path ++ ": expected array of recent items"
  | RecentEntryNotObject path i =>
      "❌ " ++ path ++ "[" ++ PyStr.of_nat i ++ "]: recent entry not an object"
  | RecentMissingIdentifier path i =>
      "❌ " ++ path ++ "[" ++ PyStr.of_nat i
        ++ "]: missing publication identifier (publication_identifier/identifier/id)"
  | RecentMissingAuthor path i =>
      "❌ " ++ path ++ "[" ++ PyStr.of_nat i
        ++ "]: missing author field (author_names/author)"
  | GenericMissingIdentifier path =>
      "⚠️ " ++ path
        ++ ": expected an identifier key (identifier/id/publication_identifier)"
  end%string.

(** *** [print]

    A Python [str] is carried here by its bytes in UTF-8.  A lone surrogate,
    which [json.load] keeps from an escape such as [\ud800] and which
    [os.walk] yields in the name of a file that does not decode, is carried
    by the three bytes the [surrogatepass] handler gives it: 0xED, a byte
    from 0xA0 to 0xBF, and one more; in well-formed UTF-8 the byte after
    0xED is below 0xA0. *)

(** The bytes [a], [b] start a surrogate. *)
Definition surrogate_lead (a b : ascii) : bool :=
  (nat_of_ascii a =? 237)%nat
  && (160 <=? nat_of_ascii b)%nat && (nat_of_ascii b <=? 191)%nat.

(** The text holds a surrogate. *)
Fixpoint has_surrogate (s : string) : bool :=
  match s with
  | String a (String b _ as s') => surrogate_lead a b || has_surrogate s'
  | _ => false
  end.

(** [print(s)] writes to a standard output with the UTF-8 encoding and the
    strict error handler, which the script's own messages call for: it
    writes the text when it can be encoded and raises [UnicodeEncodeError],
    having written nothing of it, when the text holds a surrogate. *)
Definition encodable (s : string) : bool := negb (has_surrogate s).

(** [print] on each of [lines] in order: what was written, and whether
    every call returned; the first text that cannot be encoded ends it. *)
Fixpoint print_each (lines : list string) : list string * bool :=
  match lines with
  | [] => ([], true)
  | line :: rest =>
      if encodable line then
        let (written, done) := print_each rest in (line :: written, done)
      else ([], false)
  end.

(** What the process leaves behind: the texts written to its standard
    output, in order, and its exit status. *)
Record process : Type := { stdout : list string; exit_code : Z }.

Definition newline : string := String (ascii_of_nat 10) EmptyString.

(** The text of [print(f"\nFound {len(errors)} issues:")]. *)
Definition count_line (n : nat) : string :=
  (newline ++ "Found " ++ PyStr.of_nat n ++ " issues:")%string.

(** The block under [# Finish].  With diagnostics the status is 1 whether
    [sys.exit(1)] is reached or a [print] raises, an exception nothing
    catches ending the interpreter with status 1 as well. *)
Definition finish (errors : list diag) : process :=
  match errors with
  | [] =>
      let (written, done) := print_each ["✅ All validations passed."] in
      {| stdout := written; exit_code := if done then 0 else 1 |}
  | _ :: _ =>
      let (written, _) :=
        print_each (count_line (List.length errors) :: map render errors) in
      {| stdout := written; exit_code := 1 |}
  end.

Definition startup : string := "🔍 Repo-shaped validator starting...".

(** The script run on the tree [top] as working directory.  An exception
    nothing catches ends the interpreter with status 1 before [# Finish] is
    reached; its traceback goes to the error stream. *)
Definition main (top : node) : process :=
  let (written, done) := print_each [startup] in
  if done then
    match walk repr_str "." top [] with
    | Ok _ errors =>
        let p := finish errors in
        {| stdout := written ++ stdout p; exit_code := exit_code p |}
    | Raise _ _ => {| stdout := written; exit_code := 1 |}
    end
  else {| stdout := written; exit_code := 1 |}.

End Report.

(** [repr] of a [str] made of printable ASCII other than the quote and the
    backslash: the text between single quotes. *)
Definition repr_plain (s : string) : string := ("'" ++ s ++ "'")%string.

(** * Notions the properties are stated with

    What a piece of the script appends, in the words of the specification,
    to compare the script against; and the file tree seen from outside the
    walk. *)

(** [emits m P]: started with any [errors], [m] leaves [errors] followed by
    diagnostics that all satisfy [P], whether it ends or raises. *)
Definition emits {A} (m : M A) (P : diag -> Prop) : Prop :=
  forall errors, exists out,
    errors_of (m errors) = errors ++ out /\ Forall P out.

(** What the required-field loop appends for a [dict]. *)
Definition required_field_diags (path : string) (data : json) : list diag :=
  (if dict_contains "identifier" data then []
   else [MissingManifestField path "identifier"])
  ++ (if dict_contains "title" data then []
      else [MissingManifestField path "title"]).

(** What the [if]/[elif] on the resolved identifier appends. *)
Definition identifier_diags (repr_str : string -> string)
    (path : string) (data : json) : list diag :=
  let parent_dir := OsPath.basename (OsPath.dirname path) in
  let identifier := get_identifier_from data in
  if is_None identifier then [ManifestMissingIdentifier path]
  else if String.eqb parent_dir (py_str repr_str identifier) then []
  else [ParentDirMismatch path parent_dir identifier].

(** The first of [keys] that the entry holds. *)
Definition first_present (keys : list string) (item : json) : option string :=
  find (fun k => dict_contains k item) keys.

(** An entry resolves [keys] when the first of them it holds has a value
    other than [null]. *)
Definition resolves (keys : list string) (item : json) : bool :=
  match first_present keys item with
  | Some k => negb (is_None (dict_get k item))
  | None => false
  end.

(** What one entry of a recent file is to get: one diagnostic when it is no
    object; otherwise one for an unresolved identifier and, independently,
    one for an unresolved author. *)
Definition recent_entry_diags (path : string) (entry : nat * json) : list diag :=
  let (i, item) := entry in
  match item with
  | JObject _ =>
      (if resolves identifier_keys item then []
       else [RecentMissingIdentifier path i])
      ++ (if resolves author_keys item then []
          else [RecentMissingAuthor path i])
  | _ => [RecentEntryNotObject path i]
  end.

Definition dialogue_fields : list string :=
  ["character_identifier"; "ordinal"; "text"].

(** What one entry of a dialogues file is to get: one diagnostic when it is
    no object; otherwise one per field of [dialogue_fields] that is not a key
    of the entry. *)
Definition dialogue_entry_diags (path : string) (entry : nat * json) : list diag :=
  let (i, item) := entry in
  match item with
  | JObject _ =>
      map (MissingDialogueField path i)
          (filter (fun rf => negb (dict_contains rf item)) dialogue_fields)
  | _ => [DialogueEntryNotObject path i]
  end.

(** The tree without the directories [os.walk] is told not to enter: at
    every depth below the top, a directory named in [skip_dirs] is removed
    with all it holds. *)
Fixpoint prune_entries (prune_dir : node -> node) (entries : list node)
  : list node :=
  match entries with
  | [] => []
  | (File _ _ as f) :: rest => f :: prune_entries prune_dir rest
  | (Dir d _ as sub) :: rest =>
      if in_skip_dirs d then prune_entries prune_dir rest
      else prune_dir sub :: prune_entries prune_dir rest
  end.

Fixpoint prune (top : node) : node :=
  match top with
  | File _ _ => top
  | Dir d entries => Dir d (prune_entries prune entries)
  end.

(** [file_at top dirs fname]: going down from [top] through the directories
    named [dirs], in this order, leads to a directory that holds a file named
    [fname]. *)
Inductive file_at : node -> list string -> string -> Prop :=
| file_here d entries fname content :
    In (File fname content) entries ->
    file_at (Dir d entries) [] fname
| file_below d entries d' sub dirs fname :
    In (Dir d' sub) entries ->
    file_at (Dir d' sub) dirs fname ->
    file_at (Dir d entries) (d' :: dirs) fname.

(** The property of a diagnostic of the walk started at [root] on [top]:
    its path is that of a file of the tree, reached from [root] through
    directories none of which is named in [skip_dirs]. *)
Definition reported_below (root : string) (top : node) (d : diag) : Prop :=
  exists dirs fname,
    diag_path d = OsPath.join (fold_left OsPath.join dirs root) fname /\
    Forall (fun s => in_skip_dirs s = false) dirs /\
    file_at top dirs fname.

(** A parsed document that is no container: number, boolean or [null]. *)
Definition is_scalar (data : json) : bool :=
  match data with
  | JNull | JBool _ | JInt _ | JFloat _ => true
  | JString _ | JArray _ | JObject _ => false
  end.


(** The two [continue] tests at the head of the file loop: the name does
    not end in [.json], or is [meta.json], or starts with [package]. *)
Definition ignored_name (fname : string) : bool :=
  negb (PyStr.endswith fname ".json")
  || String.eqb fname "meta.json"
  || PyStr.startswith fname "package".

(** The tree without the files of ignored name, at every depth. *)
Fixpoint strip_entries (strip_dir : node -> node) (entries : list node)
  : list node :=
  match entries with
  | [] => []
  | (File fname _ as f) :: rest =>
      if ignored_name fname then strip_entries strip_dir rest
      else f :: strip_entries strip_dir rest
  | (Dir _ _ as sub) :: rest => strip_dir sub :: strip_entries strip_dir rest
  end.

Fixpoint strip_ignored (top : node) : node :=
  match top with
  | File _ _ => top
  | Dir d entries => Dir d (strip_entries strip_ignored entries)
  end.

(** [framed m]: what [m] does is the same whatever [errors] holds when it
    starts; it only adds to the end of it. *)
Definition framed {A} (m : M A) : Prop :=
  forall errors,
    m errors = match m [] with
               | Ok a out => Ok a (errors ++ out)
               | Raise e out => Raise e (errors ++ out)
               end.

(** A string without the path separator. *)
Fixpoint slash_free (s : string) : bool :=
  match s with
  | EmptyString => true
  | String a s' => negb (Ascii.eqb a OsPath.sep_char) && slash_free s'
  end.

(** What a directory listing can hold as the name of an entry: not empty
    and without separator. *)
Definition is_name (s : string) : bool :=
  negb (String.eqb s "") && slash_free s.

(** A name other than the two entries [.] and [..], which a directory
    listing never yields. *)
Definition is_entry (s : string) : bool :=
  is_name s && negb (String.eqb s ".") && negb (String.eqb s "..").

(** The path the walk builds for the file [fname] reached from the working
    directory through the directories [dirs]. *)
Definition walk_path (dirs : list string) (fname : string) : string :=
  OsPath.join (fold_left OsPath.join dirs ".") fname.

(** [/d1/d2/.../dn], the text the directories [dirs] add to a path. *)
Fixpoint segments (dirs : list string) : string :=
  match dirs with
  | [] => EmptyString
  | d :: ds => (OsPath.sep ++ d ++ segments ds)%string
  end.

(** The position in the array that a diagnostic names after the path, when
    it names one. *)
Definition diag_index (d : diag) : option nat :=
  match d with
  | DialogueEntryNotObject _ i | MissingDialogueField _ i _
  | RecentEntryNotObject _ i | RecentMissingIdentifier _ i
  | RecentMissingAuthor _ i => Some i
  | _ => None
  end.

(** A text of ASCII characters only. *)
Fixpoint ascii_text (s : string) : bool :=
  match s with
  | EmptyString => true
  | String a s' => (nat_of_ascii a <? 128)%nat && ascii_text s'
  end.

(** The diagnostic names position [i]. *)
Definition names_position (i : nat) (d : diag) : bool :=
  match diag_index d with
  | Some j => Nat.eqb j i
  | None => false
  end.

(** * Properties *)

(** ** [os.path] and [str] on the paths of the repository *)

Example basename_manifest :
  OsPath.basename "./publications/X/manifest.json" = "manifest.json".
Proof. reflexivity. Qed.

Example parent_dir_manifest :
  OsPath.basename (OsPath.dirname "./publications/X/manifest.json") = "X".
Proof. reflexivity. Qed.

Example normpath_dot_prefix :
  OsPath.normpath "./publications/recent.json" = "publications/recent.json".
Proof. reflexivity. Qed.

Example normpath_dotdot :
  OsPath.normpath "a//b/../c/./d/" = "a/c/d".
Proof. reflexivity. Qed.

Example join_root : OsPath.join "." "publications" = "./publications".
Proof. reflexivity. Qed.

Example str_of_index : PyStr.of_nat 0 = "0" /\ PyStr.of_nat 12 = "12".
Proof. split; reflexivity. Qed.

Example str_of_int : PyStr.of_Z (-5) = "-5" /\ PyStr.of_Z 0 = "0".
Proof. split; reflexivity. Qed.

(** ** Strings *)

Lemma startswith_iff (pre s : string) :
  PyStr.startswith s pre = true <-> exists post, s = (pre ++ post)%string.
Proof.
  revert s; induction pre as [|a pre IH]; intros [|b s]; simpl.
  - split; [intros _; now exists EmptyString | reflexivity].
  - split; [intros _; now exists (String b s) | reflexivity].
  - split; [discriminate | intros [post H]; discriminate].
  - rewrite andb_true_iff, Ascii.eqb_eq, IH. split.
    + intros [-> [post ->]]. now exists post.
    + intros [post H]. injection H as -> ->. split; [reflexivity | now exists post].
Qed.

(** Python's [sub in s] holds exactly when [sub] occurs in [s]. *)
Lemma contains_iff (sub s : string) :
  PyStr.contains sub s = true <-> exists pre post, s = (pre ++ sub ++ post)%string.
Proof.
  induction s as [|a s IH]; cbn [PyStr.contains]; rewrite orb_true_iff, startswith_iff.
  - split.
    + intros [[post H] | H]; [|discriminate]. now exists EmptyString, post.
    + intros [pre [post H]]. left. destruct pre; [now exists post | discriminate].
  - rewrite IH. split.
    + intros [[post H] | [pre [post H]]].
      * now exists EmptyString, post.
      * exists (String a pre), post. simpl. now rewrite H.
    + intros [pre [post H]]. destruct pre as [|b pre]; simpl in H.
      * left. now exists post.
      * right. injection H as _ H. now exists pre, post.
Qed.

(** ** The accumulator only grows *)

Lemma emits_ret {A} (a : A) P : emits (ret a) P.
Proof. intros errors. exists []. simpl. now rewrite app_nil_r. Qed.

Lemma emits_raise {A} e P : emits (@raise A e) P.
Proof. intros errors. exists []. simpl. now rewrite app_nil_r. Qed.

Lemma emits_append d (P : diag -> Prop) : P d -> emits (append d) P.
Proof. intros H errors. exists [d]. simpl. auto. Qed.

Lemma emits_bind {A B} (m : M A) (k : A -> M B) P :
  emits m P -> (forall a, emits (k a) P) -> emits (bind m k) P.
Proof.
  intros Hm Hk errors. unfold bind.
  destruct (Hm errors) as [out1 [E1 F1]].
  destruct (m errors) as [a errors'|e errors']; simpl in E1; subst errors'.
  - destruct (Hk a (errors ++ out1)) as [out2 [E2 F2]].
    exists (out1 ++ out2). rewrite E2, app_assoc. split; [reflexivity|].
    apply Forall_app; auto.
  - exists out1. auto.
Qed.

Lemma emits_for_each {A} (xs : list A) (body : A -> M unit) P :
  (forall x, In x xs -> emits (body x) P) -> emits (for_each xs body) P.
Proof.
  induction xs as [|x xs IH]; intros H; simpl.
  - apply emits_ret.
  - apply emits_bind; [apply H; now left | intros _; apply IH].
    intros y Hy; apply H; now right.
Qed.

Lemma emits_weaken {A} (m : M A) (P Q : diag -> Prop) :
  (forall d, P d -> Q d) -> emits m P -> emits m Q.
Proof.
  intros HPQ Hm errors. destruct (Hm errors) as [out [E F]].
  exists out. split; [exact E|]. eapply Forall_impl; eauto.
Qed.

(** ** Key lookup *)

(** A key that a [dict] holds has a value there, and [get] returns it. *)
Lemma dict_get_present k members :
  dict_contains k (JObject members) = true ->
  exists v, In (k, v) members /\ dict_get k (JObject members) = v.
Proof.
  simpl. induction members as [|[k' v'] members IH]; simpl; [discriminate|].
  destruct (String.eqb k' k) eqn:E; simpl.
  - apply String.eqb_eq in E; subst k'. intros _. exists v'. auto.
  - intros H. destruct (IH H) as [v [Hin Hv]]. exists v. auto.
Qed.

(** The lookup loop returns the value of the first candidate key the
    [dict] holds. *)
Lemma first_key_value_present keys members :
  (exists k, In k keys /\ dict_contains k (JObject members) = true) ->
  exists before k after,
    keys = before ++ k :: after /\
    Forall (fun k' => dict_contains k' (JObject members) = false) before /\
    dict_contains k (JObject members) = true /\
    first_key_value keys (JObject members) = dict_get k (JObject members).
Proof.
  induction keys as [|k0 keys IH]; intros [k [Hin Hk]]; [destruct Hin|].
  destruct (dict_contains k0 (JObject members)) eqn:E0.
  - exists [], k0, keys. cbn [first_key_value isinstance_dict andb].
    rewrite E0. auto.
  - destruct Hin as [->|Hin]; [congruence|].
    destruct IH as [before [k1 [after [Hk1 [Hb [Hc Hv]]]]]]; [now exists k|].
    exists (k0 :: before), k1, after. cbn [first_key_value isinstance_dict andb].
    rewrite E0. subst keys. repeat split; auto.
Qed.

(** With none of the candidate keys in the [dict], or on anything that is
    not a [dict], the loop falls through to [return None]. *)
Lemma first_key_value_absent keys obj :
  (forall k, In k keys -> dict_contains k obj = false) ->
  first_key_value keys obj = JNull.
Proof.
  induction keys as [|k keys IH]; intros H; simpl; [reflexivity|].
  rewrite (H k) by now left. rewrite andb_false_r. apply IH.
  intros k' Hk'. apply H. now right.
Qed.

(** ** The manifest branch *)

Section Manifest.

Variable repr_str : string -> string.

(** Runs the branch once the outcome of each membership test is a
    variable: case analysis on the tests, then on the two conditions of the
    [if]/[elif]. *)
Ltac run_manifest :=
  unfold check_manifest, required_field_diags, identifier_diags;
  cbn [for_each py_in bind ret]; cbv zeta;
  repeat match goal with
    | |- context [negb ?b] =>
        lazymatch b with
        | negb _ => fail
        | _ => destruct b eqn:?; cbn [negb andb append ret bind app]
        end
    end;
  repeat match goal with
    | |- context [if ?b then _ else _] =>
        destruct b eqn:?; cbn [negb andb append ret bind app]
    end;
  try discriminate; unfold append, ret;
  repeat rewrite <- app_assoc; cbn [app]; rewrite ?app_nil_r; try reflexivity.

(** On a [dict] the branch runs to its end. *)
Lemma check_manifest_object path members errors :
  check_manifest repr_str path (JObject members) errors =
  Ok tt (errors ++ required_field_diags path (JObject members)
                ++ identifier_diags repr_str path (JObject members)).
Proof. run_manifest. Qed.

(** On a [str] document the required-field tests are substring tests and
    no identifier is resolved. *)
Lemma check_manifest_string path s errors :
  check_manifest repr_str path (JString s) errors =
  Ok tt (errors
         ++ (if PyStr.contains "identifier" s then []
             else [MissingManifestField path "identifier"])
         ++ (if PyStr.contains "title" s then []
             else [MissingManifestField path "title"])
         ++ [ManifestMissingIdentifier path]).
Proof.
  unfold check_manifest.
  change (get_identifier_from (JString s)) with JNull. run_manifest.
Qed.

(** On a [list] document they are element tests. *)
Lemma check_manifest_array path items errors :
  check_manifest repr_str path (JArray items) errors =
  Ok tt (errors
         ++ (if existsb (eq_str "identifier") items then []
             else [MissingManifestField path "identifier"])
         ++ (if existsb (eq_str "title") items then []
             else [MissingManifestField path "title"])
         ++ [ManifestMissingIdentifier path]).
Proof.
  unfold check_manifest.
  change (get_identifier_from (JArray items)) with JNull. run_manifest.
Qed.

(** A document that is no container makes the first required-field test
    raise, with nothing appended. *)
Lemma check_manifest_scalar path data errors :
  match data with
  | JNull | JBool _ | JInt _ | JFloat _ => True
  | _ => False
  end ->
  check_manifest repr_str path data errors = Raise TypeError errors.
Proof.
  destruct data; intros H; try contradiction; reflexivity.
Qed.

Lemma validate_manifest path data :
  is_publication_manifest path = true ->
  validate repr_str path data = check_manifest repr_str path data.
Proof. intros H. unfold validate. now rewrite H. Qed.

End Manifest.

Lemma is_None_iff v : is_None v = true <-> v = JNull.
Proof. destruct v; simpl; split; congruence. Qed.

(** Among what the branch appends for a [dict], the "manifest missing
    identifier field" diagnostic is there exactly when the lookup gave
    [None]. *)
Lemma missing_identifier_emitted_iff repr_str path data :
  In (ManifestMissingIdentifier path)
     (required_field_diags path data ++ identifier_diags repr_str path data)
  <-> get_identifier_from data = JNull.
Proof.
  rewrite <- is_None_iff.
  unfold required_field_diags, identifier_diags. cbv zeta.
  rewrite !in_app_iff.
  destruct (dict_contains "identifier" data), (dict_contains "title" data),
    (is_None (get_identifier_from data)),
    (String.eqb (OsPath.basename (OsPath.dirname path))
                 (py_str repr_str (get_identifier_from data)));
    simpl; intuition discriminate.
Qed.

(** C1, as stated, does not hold: a manifest whose [identifier] key is
    present with value [null] still gets the "manifest missing identifier
    field" diagnostic, because the lookup returns [None] for it and the caller
    tests [identifier is None]. *)
Lemma null_identifier_reported_missing :
  ~ (forall (repr_str : string -> string) path members,
        is_publication_manifest path = true ->
        (exists k, In k identifier_keys
                   /\ dict_contains k (JObject members) = true) ->
        ~ In (ManifestMissingIdentifier path)
             (errors_of (validate repr_str path (JObject members) []))).
Proof.
  intros H.
  apply (H repr_plain "./publications/X/manifest.json"
           [("identifier", JNull); ("title", JString "T")]).
  - reflexivity.
  - exists "identifier". split; [now left | reflexivity].
  - vm_compute. now left.
Qed.

(** C1, amended: for a manifest whose document is an object holding at least
    one of [identifier], [id], [publication_identifier], the identifier is the
    value of the first of these keys that is present; the "manifest missing
    identifier field" diagnostic is not emitted when that value is not
    [null], and is emitted when it is [null]. *)
Theorem manifest_identifier_resolution
    (repr_str : string -> string) path members errors :
  is_publication_manifest path = true ->
  (exists k, In k identifier_keys
             /\ dict_contains k (JObject members) = true) ->
  exists before k after v,
    identifier_keys = before ++ k :: after /\
    Forall (fun k' => dict_contains k' (JObject members) = false) before /\
    In (k, v) members /\
    get_identifier_from (JObject members) = v /\
    exists emitted,
      validate repr_str path (JObject members) errors
        = Ok tt (errors ++ emitted) /\
      (v <> JNull -> ~ In (ManifestMissingIdentifier path) emitted) /\
      (v = JNull -> In (ManifestMissingIdentifier path) emitted).
Proof.
  intros Hm Hk.
  destruct (first_key_value_present identifier_keys members Hk)
    as [before [k [after [Hkeys [Hb [Hc Hv]]]]]].
  destruct (dict_get_present k members Hc) as [v [Hin Hget]].
  exists before, k, after, v.
  assert (Hid : get_identifier_from (JObject members) = v)
    by (unfold get_identifier_from; congruence).
  repeat (split; [assumption|]).
  exists (required_field_diags path (JObject members)
          ++ identifier_diags repr_str path (JObject members)).
  rewrite validate_manifest, check_manifest_object by assumption.
  split; [reflexivity|].
  rewrite missing_identifier_emitted_iff, Hid. split; [tauto | auto].
Qed.

Lemma manifest_identifier_resolution_witness :
  let path := "./publications/X/manifest.json" in
  let members := [("title", JString "T"); ("id", JNull);
                  ("publication_identifier", JString "X")] in
  is_publication_manifest path = true /\
  (exists k, In k identifier_keys
             /\ dict_contains k (JObject members) = true) /\
  exists before k after v,
    identifier_keys = before ++ k :: after /\
    Forall (fun k' => dict_contains k' (JObject members) = false) before /\
    In (k, v) members /\
    get_identifier_from (JObject members) = v /\
    exists emitted,
      validate repr_plain path (JObject members) [] = Ok tt ([] ++ emitted) /\
      (v <> JNull -> ~ In (ManifestMissingIdentifier path) emitted) /\
      (v = JNull -> In (ManifestMissingIdentifier path) emitted).
Proof.
  cbv zeta.
  assert (Hk : exists k, In k identifier_keys
             /\ dict_contains k (JObject [("title", JString "T"); ("id", JNull);
                  ("publication_identifier", JString "X")]) = true)
    by (exists "id"; split; [right; now left | reflexivity]).
  split; [reflexivity|]. split; [exact Hk|].
  apply (manifest_identifier_resolution repr_plain
           "./publications/X/manifest.json" _ []); [reflexivity | exact Hk].
Defined.

(** C4: a manifest whose document is an object with [title] and none of the
    identifier-bearing keys gets exactly two diagnostics, the missing
    required field [identifier] and "manifest missing identifier field". *)
Theorem manifest_without_identifier
    (repr_str : string -> string) path members errors :
  is_publication_manifest path = true ->
  dict_contains "title" (JObject members) = true ->
  (forall k, In k identifier_keys ->
             dict_contains k (JObject members) = false) ->
  validate repr_str path (JObject members) errors =
  Ok tt (errors ++ [MissingManifestField path "identifier";
                    ManifestMissingIdentifier path]).
Proof.
  intros Hm Ht Hk.
  rewrite validate_manifest, check_manifest_object by assumption.
  unfold required_field_diags, identifier_diags, get_identifier_from.
  rewrite Ht, (Hk "identifier") by now left.
  now rewrite (first_key_value_absent _ _ Hk).
Qed.

Lemma manifest_without_identifier_witness :
  let path := "./publications/X/manifest.json" in
  let members := [("title", JString "T")] in
  is_publication_manifest path = true /\
  dict_contains "title" (JObject members) = true /\
  (forall k, In k identifier_keys ->
             dict_contains k (JObject members) = false) /\
  validate repr_plain path (JObject members) [] =
  Ok tt [MissingManifestField path "identifier";
         ManifestMissingIdentifier path].
Proof.
  cbv zeta.
  assert (Hk : forall k, In k identifier_keys ->
             dict_contains k (JObject [("title", JString "T")]) = false).
  { intros k [<-|[<-|[<-|[]]]]; reflexivity. }
  split; [reflexivity|]. split; [reflexivity|]. split; [exact Hk|].
  apply (manifest_without_identifier repr_plain
           "./publications/X/manifest.json" [("title", JString "T")] []);
    [reflexivity | reflexivity | exact Hk].
Defined.

(** A directory-mismatch warning, when the branch appends one, carries the
    parent directory and the resolved identifier, and it is appended exactly
    when an identifier was resolved whose [str] differs from the parent
    directory's name. *)
Lemma mismatch_emitted_iff repr_str path data :
  (exists p v, In (ParentDirMismatch path p v)
                  (required_field_diags path data
                   ++ identifier_diags repr_str path data))
  <-> (get_identifier_from data <> JNull /\
       py_str repr_str (get_identifier_from data)
         <> OsPath.basename (OsPath.dirname path)).
Proof.
  rewrite <- is_None_iff.
  unfold required_field_diags, identifier_diags. cbv zeta.
  destruct (String.eqb_spec (OsPath.basename (OsPath.dirname path))
                            (py_str repr_str (get_identifier_from data)))
    as [E|E];
    destruct (dict_contains "identifier" data), (dict_contains "title" data),
      (is_None (get_identifier_from data)); simpl;
    (split;
     [ intros [p [v H]]; intuition (try discriminate; congruence)
     | intros [H1 H2]; try congruence;
       try (exfalso; apply H2; symmetry; exact E);
       do 2 eexists; eauto 6 ]).
Qed.

(** C5, as stated, does not hold when the identifier counts as resolved
    by the presence of its key: for a manifest at [publications/X] whose
    [identifier] key holds [null] the string form of the identifier, [None],
    differs from [X], and yet no directory-mismatch warning is emitted; the
    file gets "manifest missing identifier field" instead. *)
Lemma null_identifier_not_compared :
  ~ (forall (repr_str : string -> string) path members,
        is_publication_manifest path = true ->
        (exists k, In k identifier_keys
                   /\ dict_contains k (JObject members) = true) ->
        ((exists p v,
             In (ParentDirMismatch path p v)
                (errors_of (validate repr_str path (JObject members) [])))
         <-> py_str repr_str (get_identifier_from (JObject members))
               <> OsPath.basename (OsPath.dirname path))).
Proof.
  intros H.
  destruct (H repr_plain "./publications/X/manifest.json"
              [("identifier", JNull); ("title", JString "T")]) as [_ Hback].
  - reflexivity.
  - exists "identifier". split; [now left | reflexivity].
  - destruct Hback as [p [v Hin]].
    + vm_compute. discriminate.
    + vm_compute in Hin. destruct Hin as [Hin | []]. discriminate Hin.
Qed.

(** C5, amended: for a manifest for which an identifier other than [null]
    was resolved, the directory-mismatch warning is emitted exactly when the
    identifier's [str] differs from the name of the manifest's parent
    directory; when the lookup gives [None], as it does for a first present
    key holding [null], the warning is not emitted; that warning and
    "manifest missing identifier field" never both appear for one file; and
    [{"identifier": "Y", "title": "T"}] at [publications/X/manifest.json]
    gets the mismatch warning and nothing else. *)
Theorem manifest_directory_mismatch
    (repr_str : string -> string) path data errors :
  is_publication_manifest path = true ->
  (exists emitted,
      errors_of (validate repr_str path data errors) = errors ++ emitted /\
      (get_identifier_from data <> JNull ->
         validate repr_str path data errors = Ok tt (errors ++ emitted) /\
         ((exists p v, In (ParentDirMismatch path p v) emitted) <->
          py_str repr_str (get_identifier_from data)
            <> OsPath.basename (OsPath.dirname path))) /\
      (get_identifier_from data = JNull ->
         forall p v, ~ In (ParentDirMismatch path p v) emitted) /\
      ~ ((exists p v, In (ParentDirMismatch path p v) emitted) /\
         In (ManifestMissingIdentifier path) emitted)) /\
  validate repr_str "./publications/X/manifest.json"
    (JObject [("identifier", JString "Y"); ("title", JString "T")]) errors
  = Ok tt (errors ++ [ParentDirMismatch "./publications/X/manifest.json" "X"
                        (JString "Y")]).
Proof.
  intros Hm. split.
  - rewrite validate_manifest by assumption.
    destruct data as [| b | z | r | s | items | members].
    1-4: exists []; rewrite check_manifest_scalar by exact I; simpl;
         rewrite app_nil_r; split; [reflexivity|];
         split; [intros H; now elim H|];
         split; [intros _ p v [] | intros [[p [v []]] _]].
    + eexists. rewrite check_manifest_string. split; [reflexivity|].
      assert (Hno : forall p v,
                 ~ In (ParentDirMismatch path p v)
                      ((if PyStr.contains "identifier" s then []
                        else [MissingManifestField path "identifier"])
                       ++ (if PyStr.contains "title" s then []
                           else [MissingManifestField path "title"])
                       ++ [ManifestMissingIdentifier path])).
      { intros p v H. rewrite !in_app_iff in H.
        destruct (PyStr.contains "identifier" s), (PyStr.contains "title" s);
          simpl in H; intuition discriminate. }
      split; [intros H; now elim H|].
      split; [intros _; exact Hno | intros [[p [v H]] _]; exact (Hno p v H)].
    + eexists. rewrite check_manifest_array. split; [reflexivity|].
      assert (Hno : forall p v,
                 ~ In (ParentDirMismatch path p v)
                      ((if existsb (eq_str "identifier") items then []
                        else [MissingManifestField path "identifier"])
                       ++ (if existsb (eq_str "title") items then []
                           else [MissingManifestField path "title"])
                       ++ [ManifestMissingIdentifier path])).
      { intros p v H. rewrite !in_app_iff in H.
        destruct (existsb (eq_str "identifier") items),
          (existsb (eq_str "title") items);
          simpl in H; intuition discriminate. }
      split; [intros H; now elim H|].
      split; [intros _; exact Hno | intros [[p [v H]] _]; exact (Hno p v H)].
    + eexists. rewrite check_manifest_object. split; [reflexivity|].
      pose proof (mismatch_emitted_iff repr_str path (JObject members)) as Hmm.
      pose proof (missing_identifier_emitted_iff repr_str path
                    (JObject members)) as Hmi.
      split; [intros H; split; [reflexivity | tauto]|].
      split.
      * intros Hnull p v Hin.
        assert (Hex : exists p v,
                   In (ParentDirMismatch path p v)
                      (required_field_diags path (JObject members)
                       ++ identifier_diags repr_str path (JObject members)))
          by (exists p, v; exact Hin).
        apply Hmm in Hex. tauto.
      * tauto.
  - rewrite validate_manifest, check_manifest_object by reflexivity.
    reflexivity.
Qed.

Lemma manifest_directory_mismatch_witness :
  let path := "./publications/X/manifest.json" in
  let data := JObject [("id", JInt 7); ("title", JString "T")] in
  is_publication_manifest path = true /\
  exists emitted,
    errors_of (validate repr_plain path data []) = [] ++ emitted /\
    (get_identifier_from data <> JNull ->
       validate repr_plain path data [] = Ok tt ([] ++ emitted) /\
       ((exists p v, In (ParentDirMismatch path p v) emitted) <->
        py_str repr_plain (get_identifier_from data)
          <> OsPath.basename (OsPath.dirname path))) /\
    (get_identifier_from data = JNull ->
       forall p v, ~ In (ParentDirMismatch path p v) emitted) /\
    ~ ((exists p v, In (ParentDirMismatch path p v) emitted) /\
       In (ManifestMissingIdentifier path) emitted).
Proof.
  cbv zeta. split; [reflexivity|].
  apply (manifest_directory_mismatch repr_plain
           "./publications/X/manifest.json"
           (JObject [("id", JInt 7); ("title", JString "T")]) []).
  reflexivity.
Defined.

(** C10: on a manifest whose document is a JSON string, the missing
    required field diagnostic for [identifier] (for [title]) is emitted
    exactly when the string does not have [identifier] ([title]) as a
    substring; "manifest missing identifier field" is always emitted; and
    the loop over the directory's files goes on with the next file. *)
Theorem manifest_string_document
    (repr_str : string -> string) path s errors :
  is_publication_manifest path = true ->
  exists emitted,
    validate repr_str path (JString s) errors = Ok tt (errors ++ emitted) /\
    (forall r, In r ["identifier"; "title"] ->
       (In (MissingManifestField path r) emitted <->
        ~ exists pre post, s = (pre ++ r ++ post)%string)) /\
    In (ManifestMissingIdentifier path) emitted /\
    (forall root rest,
       path = OsPath.join root "manifest.json" ->
       visit_files repr_str root
         (File "manifest.json" (Parsed (JString s)) :: rest) errors
       = visit_files repr_str root rest (errors ++ emitted)).
Proof.
  intros Hm.
  exists ((if PyStr.contains "identifier" s then []
           else [MissingManifestField path "identifier"])
          ++ (if PyStr.contains "title" s then []
              else [MissingManifestField path "title"])
          ++ [ManifestMissingIdentifier path]).
  assert (Hrun : validate repr_str path (JString s) errors = Ok tt (errors ++
            (if PyStr.contains "identifier" s then []
             else [MissingManifestField path "identifier"])
            ++ (if PyStr.contains "title" s then []
                else [MissingManifestField path "title"])
            ++ [ManifestMissingIdentifier path]))
    by (rewrite validate_manifest by assumption; apply check_manifest_string).
  split; [exact Hrun|]. split; [|split].
  - intros r [<-|[<-|[]]]; rewrite <- contains_iff, !in_app_iff.
    + destruct (PyStr.contains "identifier" s), (PyStr.contains "title" s);
        simpl; intuition (try discriminate; congruence).
    + destruct (PyStr.contains "identifier" s), (PyStr.contains "title" s);
        simpl; intuition (try discriminate; congruence).
  - rewrite !in_app_iff. right; right. now left.
  - intros root rest ->.
    cbn [visit_files]. unfold bind, visit_file.
    change (PyStr.endswith "manifest.json" ".json") with true.
    change (String.eqb "manifest.json" "meta.json"
            || PyStr.startswith "manifest.json" "package") with false.
    cbn [negb]. now rewrite Hrun.
Qed.

Lemma manifest_string_document_witness :
  let path := "./publications/X/manifest.json" in
  let s := "no title, one identifier" in
  is_publication_manifest path = true /\
  exists emitted,
    validate repr_plain path (JString s) [] = Ok tt ([] ++ emitted) /\
    (forall r, In r ["identifier"; "title"] ->
       (In (MissingManifestField path r) emitted <->
        ~ exists pre post, s = (pre ++ r ++ post)%string)) /\
    In (ManifestMissingIdentifier path) emitted /\
    (forall root rest,
       path = OsPath.join root "manifest.json" ->
       visit_files repr_plain root
         (File "manifest.json" (Parsed (JString s)) :: rest) []
       = visit_files repr_plain root rest ([] ++ emitted)).
Proof.
  cbv zeta. split; [reflexivity|].
  apply (manifest_string_document repr_plain
           "./publications/X/manifest.json" "no title, one identifier" []).
  reflexivity.
Defined.

(** C2 fails on the code: a manifest whose document is a number makes the
    first required-field test raise [TypeError]; nothing catches it, so the
    walk ends there and the manifest of the next directory, which would get
    diagnostics, is never looked at. *)
Theorem scalar_manifest_aborts_walk (repr_str : string -> string) :
  let top :=
    Dir "." [Dir "publications"
               [Dir "X" [File "manifest.json" (Parsed (JInt 5))];
                Dir "Y" [File "manifest.json" (Parsed (JString "text"))]]] in
  is_publication_manifest "./publications/X/manifest.json" = true /\
  validate repr_str "./publications/X/manifest.json" (JInt 5) []
    = Raise TypeError [] /\
  walk repr_str "." top [] = Raise TypeError [] /\
  validate repr_str "./publications/Y/manifest.json" (JString "text") []
    = Ok tt [MissingManifestField "./publications/Y/manifest.json" "identifier";
             MissingManifestField "./publications/Y/manifest.json" "title";
             ManifestMissingIdentifier "./publications/Y/manifest.json"].
Proof. cbv zeta. repeat split; reflexivity. Qed.

(** The part of C2 the code does keep: a manifest document that is an
    object, an array or a string never raises. *)
Lemma container_manifest_completes repr_str path data errors :
  is_publication_manifest path = true ->
  match data with
  | JObject _ | JArray _ | JString _ => True
  | _ => False
  end ->
  completes (validate repr_str path data errors) = true.
Proof.
  intros Hm Hd. rewrite validate_manifest by assumption.
  destruct data; try contradiction.
  - now rewrite check_manifest_string.
  - now rewrite check_manifest_array.
  - now rewrite check_manifest_object.
Qed.

(** And a manifest document that is a number, a boolean or [null] always
    raises. *)
Lemma scalar_manifest_raises repr_str path data errors :
  is_publication_manifest path = true ->
  match data with
  | JNull | JBool _ | JInt _ | JFloat _ => True
  | _ => False
  end ->
  validate repr_str path data errors = Raise TypeError errors.
Proof.
  intros Hm Hd. rewrite validate_manifest by assumption.
  now apply check_manifest_scalar.
Qed.

(** ** Loops over array documents *)

(** A loop whose body always ends after appending [out x] appends the
    concatenation of those, in order. *)
Lemma for_each_appends {A} (xs : list A) (body : A -> M unit)
      (out : A -> list diag) :
  (forall x errors, In x xs -> body x errors = Ok tt (errors ++ out x)) ->
  forall errors,
    for_each xs body errors = Ok tt (errors ++ flat_map out xs).
Proof.
  induction xs as [|x xs IH]; intros H errors; simpl.
  - unfold ret. now rewrite app_nil_r.
  - unfold bind. rewrite H by now left.
    rewrite IH by (intros y e Hy; apply H; now right).
    now rewrite app_assoc.
Qed.

(** [enumerate] pairs each element with its 0-based position. *)
Lemma in_enumerate_from {A} (xs : list A) n i x :
  In (i, x) (enumerate_from n xs) <-> n <= i /\ nth_error xs (i - n) = Some x.
Proof.
  revert n; induction xs as [|y xs IH]; intros n; simpl.
  - split; [tauto | intros [_ H]]. destruct (i - n); discriminate.
  - rewrite IH. split.
    + intros [E | [Hle Hn]].
      * injection E as -> ->. rewrite Nat.sub_diag. split; [lia | reflexivity].
      * split; [lia|]. replace (i - n) with (S (i - S n)) by lia. exact Hn.
    + intros [Hle Hn]. destruct (i - n) as [|m] eqn:E; simpl in Hn.
      * left. injection Hn as ->. f_equal. lia.
      * right. split; [lia|]. replace (i - S n) with m by lia. exact Hn.
Qed.

Lemma in_enumerate {A} (xs : list A) i x :
  In (i, x) (enumerate xs) <-> nth_error xs i = Some x.
Proof.
  unfold enumerate. rewrite in_enumerate_from, Nat.sub_0_r.
  split; [tauto | split; [lia | assumption]].
Qed.

(** *** Entries of [recent.json] *)

Lemma resolves_first_key_value keys members :
  resolves keys (JObject members)
  = negb (is_None (first_key_value keys (JObject members))).
Proof.
  unfold resolves, first_present.
  induction keys as [|k keys IH]; cbn [find first_key_value isinstance_dict andb].
  - reflexivity.
  - destruct (dict_contains k (JObject members)); [reflexivity | exact IH].
Qed.

Lemma check_recent_array path items errors :
  check_recent path (JArray items) errors =
  Ok tt (errors ++ flat_map (recent_entry_diags path) (enumerate items)).
Proof.
  unfold check_recent. apply for_each_appends.
  intros [i item] e _. unfold recent_entry_diags.
  destruct item as [| b | z | r | s | l | members]; try reflexivity.
  rewrite !resolves_first_key_value.
  unfold get_identifier_from, get_author_from, bind, append, ret.
  cbn [isinstance_dict negb].
  destruct (is_None (first_key_value identifier_keys (JObject members)));
    destruct (is_None (first_key_value author_keys (JObject members)));
    cbn [negb app]; rewrite <- ?app_assoc, ?app_nil_r; reflexivity.
Qed.

Lemma validate_recent repr_str path data :
  is_publication_manifest path = false ->
  is_dialogues path = false ->
  is_recent path = true ->
  validate repr_str path data = check_recent path data.
Proof. intros H1 H2 H3. unfold validate. now rewrite H1, H2, H3. Qed.

(** C6, as stated, does not hold: an entry whose [id] key is present with
    value [null] gets the missing-identifier diagnostic. *)
Lemma null_recent_identifier_reported_missing :
  ~ (forall (repr_str : string -> string) path items i members,
        is_publication_manifest path = false ->
        is_dialogues path = false ->
        is_recent path = true ->
        nth_error items i = Some (JObject members) ->
        (exists k, In k identifier_keys
                   /\ dict_contains k (JObject members) = true) ->
        ~ In (RecentMissingIdentifier path i)
             (errors_of (validate repr_str path (JArray items) []))).
Proof.
  intros H.
  apply (H repr_plain "./publications/recent.json"
           [JObject [("id", JNull); ("author", JString "a")]] 0
           [("id", JNull); ("author", JString "a")]);
    try reflexivity.
  - exists "id". split; [right; now left | reflexivity].
  - vm_compute. now left.
Qed.

(** C6, amended: on a recent file whose document is an array, every entry
    gets, in order of its 0-based position, what [recent_entry_diags] says:
    an entry that is no object gets one diagnostic and no other check; an
    object gets a diagnostic for the identifier keys and, independently, one
    for the author keys, each exactly when the first of those keys the entry
    holds has value [null] or the entry holds none of them; both fire on an
    entry holding none. *)
Theorem recent_entries_checked
    (repr_str : string -> string) path items errors :
  is_publication_manifest path = false ->
  is_dialogues path = false ->
  is_recent path = true ->
  validate repr_str path (JArray items) errors
    = Ok tt (errors ++ flat_map (recent_entry_diags path) (enumerate items)) /\
  (forall i item, In (i, item) (enumerate items)
                  <-> nth_error items i = Some item) /\
  (forall i, recent_entry_diags path (i, JObject [])
             = [RecentMissingIdentifier path i; RecentMissingAuthor path i]).
Proof.
  intros H1 H2 H3. split; [|split].
  - rewrite validate_recent by assumption. apply check_recent_array.
  - intros i item. apply in_enumerate.
  - reflexivity.
Qed.

Lemma recent_entries_checked_witness :
  let path := "./publications/recent.json" in
  let items := [JObject [("id", JString "x")]; JInt 3;
                JObject [("author", JNull); ("id", JNull)]] in
  is_publication_manifest path = false /\
  is_dialogues path = false /\
  is_recent path = true /\
  validate repr_plain path (JArray items) []
    = Ok tt [RecentMissingAuthor path 0; RecentEntryNotObject path 1;
             RecentMissingIdentifier path 2; RecentMissingAuthor path 2].
Proof.
  cbv zeta. repeat (split; [reflexivity|]).
  apply (recent_entries_checked repr_plain "./publications/recent.json"
           [JObject [("id", JString "x")]; JInt 3;
            JObject [("author", JNull); ("id", JNull)]] []);
    reflexivity.
Defined.

(** *** Entries of [dialogues.json] *)

Lemma check_dialogues_array path items errors :
  check_dialogues path (JArray items) errors =
  Ok tt (errors ++ flat_map (dialogue_entry_diags path) (enumerate items)).
Proof.
  unfold check_dialogues. apply for_each_appends.
  intros [i item] e _. unfold dialogue_entry_diags, dialogue_fields.
  destruct item as [| b | z | r | s | l | members]; try reflexivity.
  cbn [isinstance_dict negb for_each py_in bind ret filter].
  destruct (dict_contains "character_identifier" (JObject members));
    destruct (dict_contains "ordinal" (JObject members));
    destruct (dict_contains "text" (JObject members));
    unfold bind, append, ret; cbn [negb map];
    rewrite <- ?app_assoc, ?app_nil_r; reflexivity.
Qed.

Lemma validate_dialogues repr_str path data :
  is_publication_manifest path = false ->
  is_dialogues path = true ->
  validate repr_str path data = check_dialogues path data.
Proof. intros H1 H2. unfold validate. now rewrite H1, H2. Qed.

(** C7: on a dialogues file whose document is an array, every entry gets,
    in order of its 0-based position, what [dialogue_entry_diags] says: an
    entry that is no object gets exactly one diagnostic, with its path and
    position, and no field check; an object gets one diagnostic, with path,
    position and field name, per field among [character_identifier],
    [ordinal], [text] that is not one of its keys.  A document that is no
    array gets a single diagnostic. *)
Theorem dialogue_entries_checked
    (repr_str : string -> string) path data errors :
  is_publication_manifest path = false ->
  is_dialogues path = true ->
  match data with
  | JArray items =>
      validate repr_str path data errors
        = Ok tt (errors
                 ++ flat_map (dialogue_entry_diags path) (enumerate items)) /\
      (forall i item, In (i, item) (enumerate items)
                      <-> nth_error items i = Some item) /\
      (forall i item, isinstance_dict item = false ->
         dialogue_entry_diags path (i, item) = [DialogueEntryNotObject path i]) /\
      (forall i members d,
         In d (dialogue_entry_diags path (i, JObject members)) <->
         exists rf, In rf dialogue_fields /\
                    dict_contains rf (JObject members) = false /\
                    d = MissingDialogueField path i rf) /\
      (forall i members,
         NoDup (dialogue_entry_diags path (i, JObject members)))
  | _ =>
      validate repr_str path data errors
        = Ok tt (errors ++ [DialoguesNotArray path])
  end.
Proof.
  intros H1 H2. rewrite validate_dialogues by assumption.
  destruct data as [| b | z | r | s | items | members]; try reflexivity.
  split; [apply check_dialogues_array|].
  split; [intros i item; apply in_enumerate|].
  split; [intros i [] H; try reflexivity; discriminate|].
  split.
  - intros i members d. unfold dialogue_entry_diags.
    rewrite in_map_iff. split.
    + intros [rf [<- Hrf]]. apply filter_In in Hrf. destruct Hrf as [Hin Hc].
      exists rf. apply negb_true_iff in Hc. auto.
    + intros [rf [Hin [Hc ->]]]. exists rf. split; [reflexivity|].
      apply filter_In. split; [assumption | now rewrite Hc].
  - intros i members. unfold dialogue_entry_diags.
    unfold dialogue_fields. cbn [filter].
    destruct (dict_contains "character_identifier" (JObject members));
      destruct (dict_contains "ordinal" (JObject members));
      destruct (dict_contains "text" (JObject members));
      cbn [negb map]; repeat constructor; simpl; intuition discriminate.
Qed.

Lemma dialogue_entries_checked_witness :
  let path := "./publications/X/segments/s1/dialogues.json" in
  let items := [JObject [("character_identifier", JString "a");
                         ("ordinal", JInt 1)];
                JString "line"; JObject []] in
  is_publication_manifest path = false /\
  is_dialogues path = true /\
  validate repr_plain path (JArray items) []
    = Ok tt [MissingDialogueField path 0 "text";
             DialogueEntryNotObject path 1;
             MissingDialogueField path 2 "character_identifier";
             MissingDialogueField path 2 "ordinal";
             MissingDialogueField path 2 "text"].
Proof.
  cbv zeta. repeat (split; [reflexivity|]).
  apply (dialogue_entries_checked repr_plain
           "./publications/X/segments/s1/dialogues.json"
           (JArray [JObject [("character_identifier", JString "a");
                             ("ordinal", JInt 1)];
                    JString "line"; JObject []]) []);
    reflexivity.
Defined.

(** ** The documented shapes of the repository *)

(** A manifest that names its own directory passes. *)
Example manifest_matching_directory :
  validate repr_plain "./publications/X/manifest.json"
    (JObject [("identifier", JString "X"); ("title", JString "T")]) []
  = Ok tt [].
Proof. reflexivity. Qed.

(** A dialogue line without [text] gets one diagnostic, for position 0. *)
Example dialogue_missing_text :
  validate repr_plain "./publications/X/segments/s1/dialogues.json"
    (JArray [JObject [("character_identifier", JString "a");
                      ("ordinal", JInt 1)]]) []
  = Ok tt [MissingDialogueField
             "./publications/X/segments/s1/dialogues.json" 0 "text"].
Proof. reflexivity. Qed.

(** A recent entry with [id] and no author key gets the author diagnostic
    only. *)
Example recent_missing_author :
  validate repr_plain "./publications/recent.json"
    (JArray [JObject [("id", JString "x")]]) []
  = Ok tt [RecentMissingAuthor "./publications/recent.json" 0].
Proof. reflexivity. Qed.

(** Values that Python takes for false, other than [None], resolve. *)
Example recent_falsy_values_resolve :
  validate repr_plain "./publications/recent.json"
    (JArray [JObject [("id", JString ""); ("author_names", JArray [])];
             JObject [("identifier", JInt 0); ("author", JBool false)]]) []
  = Ok tt [].
Proof. reflexivity. Qed.

(** Another JSON file of a publication: a warning when it is an object
    without identifier, nothing when it is no object. *)
Example generic_publication_file :
  validate repr_plain "./publications/X/notes.json" (JObject []) []
  = Ok tt [GenericMissingIdentifier "./publications/X/notes.json"] /\
  validate repr_plain "./publications/X/notes.json" (JInt 5) [] = Ok tt [] /\
  validate repr_plain "./docs/notes.json" (JObject []) [] = Ok tt [].
Proof. repeat split; reflexivity. Qed.

(** The text of a directory-mismatch warning. *)
Example render_mismatch :
  render repr_plain
    (ParentDirMismatch "./publications/X/manifest.json" "X" (JInt 7))
  = "⚠️ ./publications/X/manifest.json: Parent dir 'X' != identifier '7'".
Proof. reflexivity. Qed.

(** ** Classification of [recent.json] *)

(** C3 fails on the code: [is_recent] compares the normalized path with the
    text [publications/recent.json] by [str.endswith], so a directory whose
    name merely ends in [publications] passes; the file is then validated by
    the recent branch, as its diagnostic shows. *)
Theorem recent_matches_longer_segment (repr_str : string -> string) :
  let path := "./mypublications/recent.json" in
  let top :=
    Dir "." [Dir "mypublications" [File "recent.json" (Parsed (JObject []))]] in
  OsPath.normpath path = "mypublications/recent.json" /\
  is_publication_manifest path = false /\
  is_dialogues path = false /\
  is_recent path = true /\
  validate repr_str path (JObject []) [] = Ok tt [RecentNotArray path] /\
  walk repr_str "." top [] = Ok tt [RecentNotArray path].
Proof. cbv zeta. repeat split; reflexivity. Qed.

(** The recent file of the repository itself is recognised, at the root and
    below it. *)
Example recent_at_root :
  is_recent "./publications/recent.json" = true /\
  is_recent "./site/publications/recent.json" = true /\
  is_recent "./publications/recent.json.bak" = false /\
  is_recent "./publications/X/recent.json" = false.
Proof. repeat split; reflexivity. Qed.

(** ** The final report *)

Lemma ascii_text_app a b :
  ascii_text (a ++ b) = ascii_text a && ascii_text b.
Proof.
  induction a as [|x a IH]; cbn [String.append ascii_text]; [reflexivity|].
  now rewrite IH, andb_assoc.
Qed.

(** A text of ASCII characters holds no surrogate. *)
Lemma ascii_text_encodable s : ascii_text s = true -> encodable s = true.
Proof.
  unfold encodable. intros H. apply negb_true_iff.
  induction s as [|a s IH]; [reflexivity|].
  cbn [ascii_text] in H. apply andb_true_iff in H. destruct H as [Ha Hs].
  destruct s as [|b s]; [reflexivity|].
  change (has_surrogate (String a (String b s)))
    with (surrogate_lead a b || has_surrogate (String b s)).
  rewrite (IH Hs), orb_false_r.
  unfold surrogate_lead. apply Nat.ltb_lt in Ha.
  destruct (Nat.eqb_spec (nat_of_ascii a) 237) as [E|_]; [lia | reflexivity].
Qed.

Lemma ascii_text_of_nat n : ascii_text (PyStr.of_nat n) = true.
Proof.
  unfold PyStr.of_nat.
  assert (H : forall d, ascii_text (NilEmpty.string_of_uint d) = true)
    by (induction d; cbn [NilEmpty.string_of_uint ascii_text];
        try reflexivity; exact IHd).
  unfold NilZero.string_of_uint. destruct (Nat.to_uint n); try apply H.
  reflexivity.
Qed.

Lemma count_line_encodable n : encodable (count_line n) = true.
Proof.
  apply ascii_text_encodable. unfold count_line.
  rewrite !ascii_text_app, ascii_text_of_nat. reflexivity.
Qed.


Lemma print_each_all lines :
  Forall (fun line => encodable line = true) lines ->
  print_each lines = (lines, true).
Proof.
  induction 1 as [|line lines Hl Hall IH]; cbn [print_each]; [reflexivity|].
  now rewrite Hl, IH.
Qed.

(** When the walk runs to its end, the exit status is 0 for an empty
    [errors] and 1 otherwise; every diagnostic is printed, in order, when
    each of them can be encoded. *)
Lemma main_after_completed_walk repr_str top errors :
  walk repr_str "." top [] = Ok tt errors ->
  (errors = [] ->
     exit_code (main repr_str top) = 0%Z /\
     stdout (main repr_str top) = [startup; "✅ All validations passed."]) /\
  (errors <> [] ->
     exit_code (main repr_str top) = 1%Z /\
     (Forall (fun d => encodable (render repr_str d) = true) errors ->
      stdout (main repr_str top)
      = startup :: count_line (List.length errors)
                :: map (render repr_str) errors)).
Proof.
  intros H. unfold main.
  change (print_each [startup]) with ([startup], true). cbv iota.
  rewrite H. split.
  - intros ->. split; reflexivity.
  - intros Hne. destruct errors as [|d errors]; [congruence|].
    unfold finish.
    destruct (print_each (count_line (List.length (d :: errors))
                           :: map (render repr_str) (d :: errors)))
      as [written done] eqn:Ep.
    split; [reflexivity|]. intros Hall. cbn [stdout app].
    rewrite print_each_all in Ep.
    + now injection Ep as <- _.
    + constructor; [apply count_line_encodable|].
      apply Forall_map. exact Hall.
Qed.

(** C9 fails on the code for trees on which the walk does not reach the
    final report: a manifest whose document is a number raises [TypeError],
    the interpreter exits with status 1 although [errors] is empty, while the
    empty tree exits with status 0 on the same empty [errors]; and when
    diagnostics were accumulated before the exception, none is printed. *)
Theorem exit_status_after_uncaught_exception (repr_str : string -> string) :
  let manifest := Dir "publications"
                    [Dir "X" [File "manifest.json" (Parsed (JInt 5))]] in
  let top := Dir "." [manifest] in
  let top' := Dir "." [File "broken.json" (Failed "Expecting value"); manifest] in
  errors_of (walk repr_str "." top []) = [] /\
  exit_code (main repr_str top) = 1%Z /\
  errors_of (walk repr_str "." (Dir "." []) []) = [] /\
  exit_code (main repr_str (Dir "." [])) = 0%Z /\
  errors_of (walk repr_str "." top' [])
    = [JsonParseError "./broken.json" "Expecting value"] /\
  stdout (main repr_str top') = [startup].
Proof. cbv zeta. repeat split; reflexivity. Qed.

(** ** Skipped directories *)

(** Induction on trees, with the hypothesis on every entry of a directory. *)
Lemma node_ind_entries (P : node -> Prop) :
  (forall fname content, P (File fname content)) ->
  (forall d entries, Forall P entries -> P (Dir d entries)) ->
  forall top, P top.
Proof.
  intros Hfile Hdir.
  fix IH 1. intros [fname content | d entries].
  - apply Hfile.
  - apply Hdir. induction entries as [|e entries IHentries].
    + constructor.
    + constructor; [apply IH | exact IHentries].
Qed.

Section Walk.

Variable repr_str : string -> string.

(** Every diagnostic of a file is about that file's path. *)
Lemma validate_emits_path path data :
  emits (validate repr_str path data) (fun d => diag_path d = path).
Proof.
  unfold validate, check_manifest, check_dialogues, check_recent,
    check_generic.
  repeat match goal with
    | |- emits (if ?b then _ else _) _ => destruct b
    | |- emits (match ?x with _ => _ end) _ => destruct x
    | |- emits (bind _ _) _ => apply emits_bind
    | |- emits (for_each _ _) _ => apply emits_for_each
    | |- emits (append _) _ => apply emits_append; reflexivity
    | |- emits (ret _) _ => apply emits_ret
    | |- emits (raise _) _ => apply emits_raise
    | |- emits (py_in _ _) _ => unfold py_in
    | |- forall _, _ => intro
    | |- emits (let (_, _) := ?p in _) _ => destruct p
    end.
Qed.

Lemma visit_file_emits_path root fname content :
  emits (visit_file repr_str root fname content)
        (fun d => diag_path d = OsPath.join root fname).
Proof.
  unfold visit_file.
  destruct (negb _); [apply emits_ret|].
  destruct (_ || _); [apply emits_ret|].
  destruct content; [apply validate_emits_path|].
  now apply emits_append.
Qed.

Lemma visit_files_emit_paths root entries :
  emits (visit_files repr_str root entries)
        (fun d => exists fname content,
                    In (File fname content) entries /\
                    diag_path d = OsPath.join root fname).
Proof.
  induction entries as [|[fname content | d' sub] entries IH];
    cbn [visit_files].
  - apply emits_ret.
  - apply emits_bind.
    + eapply emits_weaken; [|apply visit_file_emits_path].
      intros d Hd. exists fname, content. split; [now left | exact Hd].
    + intros _. eapply emits_weaken; [|exact IH].
      intros d [f [c [Hin Hd]]]. exists f, c. split; [now right | exact Hd].
  - eapply emits_weaken; [|exact IH].
    intros d [f [c [Hin Hd]]]. exists f, c. split; [now right | exact Hd].
Qed.

Lemma descend_emits root name entries :
  Forall (fun sub => forall root', emits (walk repr_str root' sub)
                                         (reported_below root' sub)) entries ->
  forall es, incl es entries ->
    emits (descend (walk repr_str) root es)
          (reported_below root (Dir name entries)).
Proof.
  intros Hall es. induction es as [|[fname content | d' sub] es IH];
    intros Hincl; cbn [descend].
  - apply emits_ret.
  - apply IH. intros x Hx. apply Hincl. now right.
  - assert (Hin : In (Dir d' sub) entries) by (apply Hincl; now left).
    assert (Hrest : incl es entries)
      by (intros x Hx; apply Hincl; now right).
    destruct (in_skip_dirs d') eqn:Hskip; [now apply IH|].
    apply emits_bind; [|intros _; now apply IH].
    rewrite Forall_forall in Hall.
    eapply emits_weaken; [|apply (Hall _ Hin)].
    intros d [dirs [fname [Hpath [Hok Hfile]]]].
    exists (d' :: dirs), fname. split; [exact Hpath|].
    split; [now constructor|]. now apply file_below with sub.
Qed.

Lemma walk_emits top :
  forall root, emits (walk repr_str root top) (reported_below root top).
Proof.
  induction top as [fname content | name entries IH] using node_ind_entries;
    intros root; cbn [walk].
  - apply emits_ret.
  - apply emits_bind.
    + eapply emits_weaken; [|apply visit_files_emit_paths].
      intros d [fname [content [Hin Hd]]].
      exists [], fname. split; [exact Hd|].
      split; [constructor|]. now apply file_here with content.
    + intros _. apply descend_emits; [exact IH | apply incl_refl].
Qed.

(** Files are looked at whether or not skipped directories sit next to
    them. *)
Lemma visit_files_prune root entries :
  visit_files repr_str root (prune_entries prune entries)
  = visit_files repr_str root entries.
Proof.
  induction entries as [|[fname content | d sub] entries IH];
    cbn [prune_entries visit_files].
  - reflexivity.
  - now rewrite IH.
  - destruct (in_skip_dirs d); [exact IH|]. cbn [prune visit_files]. exact IH.
Qed.

Lemma descend_prune root entries :
  Forall (fun sub => forall root' errors,
            walk repr_str root' (prune sub) errors
            = walk repr_str root' sub errors) entries ->
  forall errors,
    descend (walk repr_str) root (prune_entries prune entries) errors
    = descend (walk repr_str) root entries errors.
Proof.
  induction 1 as [|[fname content | d sub] entries Hsub Hall IH];
    intros errors; cbn [prune_entries descend].
  - reflexivity.
  - apply IH.
  - destruct (in_skip_dirs d) eqn:Hskip; [apply IH|].
    change (prune (Dir d sub)) with (Dir d (prune_entries prune sub)).
    cbn [descend]. rewrite Hskip. unfold bind.
    change (Dir d (prune_entries prune sub)) with (prune (Dir d sub)).
    rewrite Hsub. destruct (walk repr_str _ _ errors); [apply IH | reflexivity].
Qed.

Lemma walk_prune top :
  forall root errors,
    walk repr_str root (prune top) errors = walk repr_str root top errors.
Proof.
  induction top as [fname content | name entries IH] using node_ind_entries;
    intros root errors; cbn [prune walk].
  - reflexivity.
  - unfold bind. rewrite visit_files_prune.
    destruct (visit_files repr_str root entries errors); [|reflexivity].
    now apply descend_prune.
Qed.

End Walk.

(** C8: no diagnostic is about a file inside a directory named [.git],
    [.github], [node_modules] or [__pycache__], at any depth: the run is the
    same as on the tree with those directories removed, and the path of every
    diagnostic is that of a file reached from the root through directories
    none of which has such a name. *)
Theorem skipped_directories_never_reported
    (repr_str : string -> string) (top : node) :
  walk repr_str "." (prune top) [] = walk repr_str "." top [] /\
  main repr_str (prune top) = main repr_str top /\
  forall d, In d (errors_of (walk repr_str "." top [])) ->
    exists dirs fname,
      diag_path d = OsPath.join (fold_left OsPath.join dirs ".") fname /\
      Forall (fun s => In s skip_dirs -> False) dirs /\
      file_at top dirs fname.
Proof.
  split; [apply walk_prune|].
  split; [unfold main; now rewrite walk_prune|].
  intros d Hd.
  destruct (walk_emits repr_str top "." []) as [out [E Hall]].
  rewrite E in Hd. simpl in Hd. rewrite Forall_forall in Hall.
  destruct (Hall d Hd) as [dirs [fname [Hpath [Hok Hfile]]]].
  exists dirs, fname. split; [exact Hpath|]. split; [|exact Hfile].
  eapply Forall_impl; [|exact Hok].
  intros s Hs Hin. unfold in_skip_dirs in Hs.
  assert (existsb (String.eqb s) skip_dirs = true); [|congruence].
  apply existsb_exists. exists s. split; [exact Hin | apply String.eqb_refl].
Qed.

(** A tree with a broken file inside [.git] and inside a nested
    [node_modules]: neither is reported. *)
Example skipped_directories_example :
  let top :=
    Dir "." [Dir ".git" [File "config.json" (Failed "Expecting value")];
             Dir "publications"
               [Dir "node_modules" [File "manifest.json" (Parsed (JInt 5))];
                File "recent.json" (Parsed (JArray []))]] in
  walk repr_plain "." top [] = Ok tt [].
Proof. reflexivity. Qed.

(** * Further properties of the script *)

(** ** Earlier diagnostics are kept *)

Lemma framed_ret {A} (a : A) : framed (ret a).
Proof. intros errors. unfold ret. now rewrite app_nil_r. Qed.

Lemma framed_raise {A} e : framed (@raise A e).
Proof. intros errors. unfold raise. now rewrite app_nil_r. Qed.

Lemma framed_append d : framed (append d).
Proof. intros errors. reflexivity. Qed.

Lemma framed_bind {A B} (m : M A) (k : A -> M B) :
  framed m -> (forall a, framed (k a)) -> framed (bind m k).
Proof.
  intros Hm Hk errors. unfold bind. rewrite (Hm errors).
  destruct (m []) as [a out | e out]; [|reflexivity].
  rewrite (Hk a (errors ++ out)), (Hk a out).
  destruct (k a []); now rewrite app_assoc.
Qed.

Lemma framed_for_each {A} (xs : list A) (body : A -> M unit) :
  (forall x, framed (body x)) -> framed (for_each xs body).
Proof.
  intros H. induction xs as [|x xs IH]; simpl.
  - apply framed_ret.
  - apply framed_bind; [apply H | intros _; exact IH].
Qed.

Section Frame.

Variable repr_str : string -> string.

Lemma framed_validate path data : framed (validate repr_str path data).
Proof.
  unfold validate, check_manifest, check_dialogues, check_recent,
    check_generic.
  repeat match goal with
    | |- framed (if ?b then _ else _) => destruct b
    | |- framed (match ?x with _ => _ end) => destruct x
    | |- framed (bind _ _) => apply framed_bind
    | |- framed (for_each _ _) => apply framed_for_each
    | |- framed (append _) => apply framed_append
    | |- framed (ret _) => apply framed_ret
    | |- framed (raise _) => apply framed_raise
    | |- framed (py_in _ _) => unfold py_in
    | |- forall _, _ => intro
    | |- framed (let (_, _) := ?p in _) => destruct p
    end.
Qed.

Lemma framed_visit_file root fname content :
  framed (visit_file repr_str root fname content).
Proof.
  unfold visit_file.
  destruct (negb _); [apply framed_ret|].
  destruct (_ || _); [apply framed_ret|].
  destruct content; [apply framed_validate | apply framed_append].
Qed.

Lemma framed_visit_files root entries :
  framed (visit_files repr_str root entries).
Proof.
  induction entries as [|[fname content | d sub] entries IH];
    cbn [visit_files].
  - apply framed_ret.
  - apply framed_bind; [apply framed_visit_file | intros _; exact IH].
  - exact IH.
Qed.

Lemma framed_descend root entries :
  Forall (fun sub => forall root', framed (walk repr_str root' sub)) entries ->
  framed (descend (walk repr_str) root entries).
Proof.
  induction 1 as [|[fname content | d sub] entries Hsub Hall IH];
    cbn [descend].
  - apply framed_ret.
  - exact IH.
  - destruct (in_skip_dirs d); [exact IH|].
    apply framed_bind; [apply Hsub | intros _; exact IH].
Qed.

Lemma framed_walk top : forall root, framed (walk repr_str root top).
Proof.
  induction top as [fname content | name entries IH] using node_ind_entries;
    intros root; cbn [walk].
  - apply framed_ret.
  - apply framed_bind; [apply framed_visit_files|].
    intros _. now apply framed_descend.
Qed.

End Frame.

(** X1: Whatever [errors] holds when the walk of a directory starts, it is
    still there, in the same order, when the walk ends or is interrupted, and
    what the walk adds and whether it ends do not depend on it. *)
Theorem walk_keeps_earlier_diagnostics
    (repr_str : string -> string) root top errors :
  errors_of (walk repr_str root top errors)
    = errors ++ errors_of (walk repr_str root top []) /\
  completes (walk repr_str root top errors)
    = completes (walk repr_str root top []).
Proof.
  rewrite (framed_walk repr_str top root errors).
  destruct (walk repr_str root top []); split; reflexivity.
Qed.

(** ** Which documents interrupt the run *)

Lemma check_dialogues_completes path data errors :
  exists out, check_dialogues path data errors = Ok tt (errors ++ out).
Proof.
  destruct data as [| b | z | r | s | items | members];
    try (now exists [DialoguesNotArray path]).
  eexists. apply check_dialogues_array.
Qed.

Lemma check_recent_completes path data errors :
  exists out, check_recent path data errors = Ok tt (errors ++ out).
Proof.
  destruct data as [| b | z | r | s | items | members];
    try (now exists [RecentNotArray path]).
  eexists. apply check_recent_array.
Qed.

Lemma check_generic_result path data errors :
  check_generic path data errors =
  Ok tt (errors ++ if isinstance_dict data
                      && is_None (get_identifier_from data)
                   then [GenericMissingIdentifier path] else []).
Proof.
  unfold check_generic.
  destruct (isinstance_dict data); cbn [andb];
    [destruct (is_None _)|]; unfold append, ret; now rewrite ?app_nil_r.
Qed.

(** The checks of one parsed file raise exactly when the file is a
    manifest whose document is a number, a boolean or [null]; [errors] is
    then as it was.  In every other case they end, having only added to
    [errors]. *)
Lemma validate_outcome
    (repr_str : string -> string) path data errors :
  exists out,
    validate repr_str path data errors =
    if is_publication_manifest path && is_scalar data
    then Raise TypeError errors
    else Ok tt (errors ++ out).
Proof.
  destruct (is_publication_manifest path) eqn:Hm; cbn [andb].
  - rewrite validate_manifest by assumption.
    destruct data as [| b | z | r | s | items | members]; cbn [is_scalar];
      try (exists []; now apply check_manifest_scalar).
    + eexists. apply check_manifest_string.
    + eexists. apply check_manifest_array.
    + eexists. apply check_manifest_object.
  - unfold validate. rewrite Hm.
    destruct (is_dialogues path); [apply check_dialogues_completes|].
    destruct (is_recent path); [apply check_recent_completes|].
    destruct (in_publications path).
    + eexists. apply check_generic_result.
    + exists []. unfold ret. now rewrite app_nil_r.
Qed.

(** X2: The checks of one parsed file are interrupted by an exception exactly
    when the file is a manifest whose document is a number, a boolean or
    [null], and then nothing was appended; in every other case they run to
    their end and only add to [errors]. *)
Theorem validate_raises_only_on_scalar_manifest
    (repr_str : string -> string) path data errors :
  exists out,
    validate repr_str path data errors =
    if is_publication_manifest path && is_scalar data
    then Raise TypeError errors
    else Ok tt (errors ++ out).
Proof. apply validate_outcome. Qed.

Section Completion.

Variable repr_str : string -> string.





End Completion.



(** A diagnostic that holds a surrogate, here from the escape [\ud800] in an
    identifier, ends the report where it stands: the count line and the
    diagnostics before it are written, the status is 1. *)
Example report_stops_at_surrogate :
  let surrogate :=
    String (ascii_of_nat 237) (String (ascii_of_nat 160)
      (String (ascii_of_nat 128) EmptyString)) in
  let top :=
    Dir "." [File "notes.json" (Failed "Expecting value");
             Dir "publications"
               [Dir "X" [File "manifest.json"
                           (Parsed (JObject [("identifier", JString surrogate);
                                             ("title", JString "T")]));
                         File "cover.json" (Parsed (JObject []))]]] in
  main repr_plain top
  = {| stdout := [startup; count_line 3;
                  "🔥 ./notes.json: JSON parse error: Expecting value"];
       exit_code := 1 |}.
Proof. reflexivity. Qed.

(** ** Files the loop passes over *)

Section Ignored.

Variable repr_str : string -> string.

Lemma visit_file_ignored root fname content errors :
  ignored_name fname = true ->
  visit_file repr_str root fname content errors = Ok tt errors.
Proof.
  unfold ignored_name, visit_file. intros H.
  destruct (negb (PyStr.endswith fname ".json")); [reflexivity|].
  cbn [orb] in H. now rewrite H.
Qed.

Lemma visit_files_strip root entries errors :
  visit_files repr_str root (strip_entries strip_ignored entries) errors
  = visit_files repr_str root entries errors.
Proof.
  revert errors.
  induction entries as [|[fname content | d sub] entries IH]; intros errors;
    cbn [strip_entries visit_files].
  - reflexivity.
  - destruct (ignored_name fname) eqn:Hi.
    + unfold bind. rewrite visit_file_ignored by assumption. apply IH.
    + cbn [visit_files]. unfold bind.
      destruct (visit_file repr_str root fname content errors);
        [apply IH | reflexivity].
  - cbn [strip_ignored visit_files]. apply IH.
Qed.

Lemma descend_strip root entries :
  Forall (fun sub => forall root' errors,
            walk repr_str root' (strip_ignored sub) errors
            = walk repr_str root' sub errors) entries ->
  forall errors,
    descend (walk repr_str) root (strip_entries strip_ignored entries) errors
    = descend (walk repr_str) root entries errors.
Proof.
  induction 1 as [|[fname content | d sub] entries Hsub Hall IH];
    intros errors; cbn [strip_entries descend].
  - reflexivity.
  - destruct (ignored_name fname); [apply IH|]. cbn [descend]. apply IH.
  - change (strip_ignored (Dir d sub))
      with (Dir d (strip_entries strip_ignored sub)).
    cbn [descend]. destruct (in_skip_dirs d); [apply IH|].
    unfold bind.
    change (Dir d (strip_entries strip_ignored sub))
      with (strip_ignored (Dir d sub)).
    rewrite Hsub. destruct (walk repr_str _ _ errors); [apply IH | reflexivity].
Qed.

Lemma walk_strip top :
  forall root errors,
    walk repr_str root (strip_ignored top) errors
    = walk repr_str root top errors.
Proof.
  induction top as [fname content | name entries IH] using node_ind_entries;
    intros root errors; cbn [strip_ignored walk].
  - reflexivity.
  - unfold bind. rewrite visit_files_strip.
    destruct (visit_files repr_str root entries errors); [|reflexivity].
    now apply descend_strip.
Qed.

End Ignored.

(** X4: Files whose name does not end in [.json], or is [meta.json], or starts
    with [package] play no part in the run, at any depth and whatever they
    hold: the walk and the whole run are the same as on the tree without
    them. *)
Theorem ignored_files_play_no_part (repr_str : string -> string) top :
  walk repr_str "." (strip_ignored top) [] = walk repr_str "." top [] /\
  main repr_str (strip_ignored top) = main repr_str top.
Proof.
  split; [apply walk_strip|]. unfold main. now rewrite walk_strip.
Qed.

(** The names the loop passes over and some it does not: the tests are on
    the whole name, case and all. *)
Example ignored_names :
  map ignored_name
      ["README.md"; "meta.json"; "package.json"; "package-lock.json";
       "packages.json"; "manifest.json"; "Meta.json"; "my-package.json";
       ".json"; "data.JSON"]
  = [true; true; true; true; true; false; false; false; false; true].
Proof. reflexivity. Qed.

(** ** Files that do not parse *)

(** X5: A file that is not passed over and whose reading fails gets one
    diagnostic, with its path and the text of the exception, and none of the
    checks its place in the tree would call for; the loop goes on with the
    next file. *)
Theorem unreadable_file_gets_one_diagnostic
    (repr_str : string -> string) root fname e rest errors :
  ignored_name fname = false ->
  visit_file repr_str root fname (Failed e) errors
    = Ok tt (errors ++ [JsonParseError (OsPath.join root fname) e]) /\
  visit_files repr_str root (File fname (Failed e) :: rest) errors
    = visit_files repr_str root rest
        (errors ++ [JsonParseError (OsPath.join root fname) e]).
Proof.
  intros H. unfold ignored_name in H.
  apply orb_false_iff in H. destruct H as [H H3].
  apply orb_false_iff in H. destruct H as [H1 H2].
  assert (E : visit_file repr_str root fname (Failed e) errors
              = Ok tt (errors ++ [JsonParseError (OsPath.join root fname) e])).
  { unfold visit_file. now rewrite H1, H2, H3. }
  split; [exact E|]. cbn [visit_files]. unfold bind. now rewrite E.
Qed.

Lemma unreadable_file_gets_one_diagnostic_witness :
  let root := "./publications/X" in
  ignored_name "manifest.json" = false /\
  visit_file repr_plain root "manifest.json" (Failed "Expecting value") []
    = Ok tt [JsonParseError "./publications/X/manifest.json" "Expecting value"].
Proof.
  cbv zeta. split; [reflexivity|].
  apply (unreadable_file_gets_one_diagnostic repr_plain "./publications/X"
           "manifest.json" "Expecting value" [] []).
  reflexivity.
Defined.

(** ** Positions and counts in array documents *)

Lemma flat_map_length_le {A B} (f : A -> list B) (xs : list A) n :
  (forall x, In x xs -> List.length (f x) <= n) ->
  List.length (flat_map f xs) <= n * List.length xs.
Proof.
  induction xs as [|x xs IH]; intros H; simpl; [lia|].
  rewrite length_app.
  specialize (H x (or_introl eq_refl)) as Hx.
  specialize (IH (fun y Hy => H y (or_intror Hy))). lia.
Qed.

Lemma dialogue_entry_diags_indexed path i item d :
  In d (dialogue_entry_diags path (i, item)) ->
  diag_index d = Some i /\ diag_path d = path.
Proof.
  unfold dialogue_entry_diags.
  destruct item; simpl; try (intros [<-|[]]; now split).
  rewrite in_map_iff. intros [rf [<- _]]. now split.
Qed.

Lemma recent_entry_diags_indexed path i item d :
  In d (recent_entry_diags path (i, item)) ->
  diag_index d = Some i /\ diag_path d = path.
Proof.
  unfold recent_entry_diags.
  destruct item; simpl; try (intros [<-|[]]; now split).
  rewrite in_app_iff.
  destruct (resolves identifier_keys _), (resolves author_keys _); simpl;
    intuition (subst; auto).
Qed.

Lemma dialogue_entry_diags_length path entry :
  List.length (dialogue_entry_diags path entry) <= 3.
Proof.
  destruct entry as [i item]. unfold dialogue_entry_diags, dialogue_fields.
  destruct item; simpl; try lia.
  repeat match goal with |- context [negb ?b] => destruct b; simpl end; lia.
Qed.

Lemma recent_entry_diags_length path entry :
  List.length (recent_entry_diags path entry) <= 2.
Proof.
  destruct entry as [i item]. unfold recent_entry_diags.
  destruct item; simpl; try lia.
  destruct (resolves identifier_keys _), (resolves author_keys _); simpl; lia.
Qed.

Lemma filter_none {A} (p : A -> bool) (l : list A) :
  (forall x, In x l -> p x = false) -> filter p l = [].
Proof.
  induction l as [|x l IH]; intros H; cbn [filter]; [reflexivity|].
  rewrite (H x) by now left. apply IH. intros y Hy. apply H. now right.
Qed.

Lemma filter_length_bound {A} (p : A -> bool) (l : list A) :
  List.length (filter p l) <= List.length l.
Proof.
  induction l as [|x l IH]; cbn [filter]; [lia|].
  destruct (p x); simpl; lia.
Qed.

(** When the diagnostics of the entry at position [j] all name [j] and are
    at most [k], at most [k] of those of the whole array name a given
    position, and none names a position before the first one counted. *)
Lemma per_position_count (f : nat * json -> list diag) k items i :
  (forall j x d, In d (f (j, x)) -> diag_index d = Some j) ->
  (forall e, List.length (f e) <= k) ->
  forall n,
    (i < n ->
     filter (names_position i) (flat_map f (enumerate_from n items)) = []) /\
    List.length
      (filter (names_position i) (flat_map f (enumerate_from n items))) <= k.
Proof.
  intros Hidx Hlen. induction items as [|x items IH]; intros n;
    cbn [enumerate_from flat_map].
  - cbn [filter List.length]. split; [reflexivity | lia].
  - rewrite filter_app, length_app.
    destruct (IH (S n)) as [IH1 IH2].
    destruct (Nat.eq_dec i n) as [->|Hne].
    + rewrite (IH1 (Nat.lt_succ_diag_r n)). cbn [List.length].
      split; [lia|].
      pose proof (filter_length_bound (names_position n) (f (n, x))).
      specialize (Hlen (n, x)). lia.
    + rewrite (filter_none (names_position i) (f (n, x))).
      * cbn [app List.length]. split; [|exact IH2].
        intros Hlt. apply IH1. lia.
      * intros d Hd. unfold names_position. rewrite (Hidx n x d Hd).
        apply Nat.eqb_neq. congruence.
Qed.

(** X6: When a dialogues file or a recent file holds an array, every diagnostic
    for it names the file's path and the position of an entry the array has;
    at most three diagnostics name any one position of a dialogues file, at
    most two any one position of a recent file, so there are at most three,
    respectively two, times as many diagnostics as entries. *)
Theorem array_diagnostics_name_valid_positions
    (repr_str : string -> string) path items errors :
  is_publication_manifest path = false ->
  is_dialogues path = true \/ is_recent path = true ->
  exists out,
    validate repr_str path (JArray items) errors = Ok tt (errors ++ out) /\
    (forall d, In d out ->
       diag_path d = path /\
       exists i item, diag_index d = Some i /\ nth_error items i = Some item) /\
    (forall i,
       List.length (filter (names_position i) out)
         <= (if is_dialogues path then 3 else 2)) /\
    List.length out
      <= (if is_dialogues path then 3 else 2) * List.length items.
Proof.
  intros Hm Hkind.
  assert (Hlen : forall A (xs : list A) n,
             List.length (enumerate_from n xs) = List.length xs)
    by (intros A xs; induction xs; intros n; simpl; auto).
  destruct (is_dialogues path) eqn:Hd.
  - exists (flat_map (dialogue_entry_diags path) (enumerate items)).
    rewrite validate_dialogues by assumption.
    split; [apply check_dialogues_array|]. split; [|split].
    + intros d Hin. apply in_flat_map in Hin.
      destruct Hin as [[i item] [Hentry Hin]].
      apply dialogue_entry_diags_indexed in Hin. destruct Hin as [Hi Hp].
      split; [exact Hp|]. exists i, item. split; [exact Hi|].
      now apply in_enumerate.
    + intros i. unfold enumerate.
      apply (per_position_count (dialogue_entry_diags path) 3 items i).
      * intros j x d Hin. now apply dialogue_entry_diags_indexed in Hin.
      * apply dialogue_entry_diags_length.
    + rewrite <- (Hlen _ items 0). apply flat_map_length_le.
      intros x _. apply dialogue_entry_diags_length.
  - destruct Hkind as [Hk|Hr]; [discriminate|].
    exists (flat_map (recent_entry_diags path) (enumerate items)).
    rewrite validate_recent by assumption.
    split; [apply check_recent_array|]. split; [|split].
    + intros d Hin. apply in_flat_map in Hin.
      destruct Hin as [[i item] [Hentry Hin]].
      apply recent_entry_diags_indexed in Hin. destruct Hin as [Hi Hp].
      split; [exact Hp|]. exists i, item. split; [exact Hi|].
      now apply in_enumerate.
    + intros i. unfold enumerate.
      apply (per_position_count (recent_entry_diags path) 2 items i).
      * intros j x d Hin. now apply recent_entry_diags_indexed in Hin.
      * apply recent_entry_diags_length.
    + rewrite <- (Hlen _ items 0). apply flat_map_length_le.
      intros x _. apply recent_entry_diags_length.
Qed.

Lemma array_diagnostics_name_valid_positions_witness :
  let path := "./publications/recent.json" in
  let items := [JObject []; JInt 1] in
  is_publication_manifest path = false /\
  (is_dialogues path = true \/ is_recent path = true) /\
  exists out,
    validate repr_plain path (JArray items) [] = Ok tt ([] ++ out) /\
    (forall d, In d out ->
       diag_path d = path /\
       exists i item, diag_index d = Some i /\ nth_error items i = Some item) /\
    (forall i,
       List.length (filter (names_position i) out)
         <= (if is_dialogues path then 3 else 2)) /\
    List.length out
      <= (if is_dialogues path then 3 else 2) * List.length items.
Proof.
  cbv zeta. split; [reflexivity|]. split; [now right|].
  apply (array_diagnostics_name_valid_positions repr_plain
           "./publications/recent.json" [JObject []; JInt 1] []);
    [reflexivity | now right].
Defined.

(** X7: A recent file whose document is no array gets one diagnostic, without
    position, whatever the document is; nothing is raised. *)
Theorem recent_document_not_an_array
    (repr_str : string -> string) path data errors :
  is_publication_manifest path = false ->
  is_dialogues path = false ->
  is_recent path = true ->
  match data with JArray _ => False | _ => True end ->
  validate repr_str path data errors = Ok tt (errors ++ [RecentNotArray path]).
Proof.
  intros H1 H2 H3 Hd. rewrite validate_recent by assumption.
  destruct data; try contradiction; reflexivity.
Qed.

Lemma recent_document_not_an_array_witness :
  let path := "./publications/recent.json" in
  is_publication_manifest path = false /\
  is_dialogues path = false /\
  is_recent path = true /\
  validate repr_plain path (JObject [("items", JArray [])]) []
    = Ok tt [RecentNotArray path].
Proof.
  cbv zeta. repeat (split; [reflexivity|]).
  apply (recent_document_not_an_array repr_plain "./publications/recent.json"
           (JObject [("items", JArray [])]) []);
    first [reflexivity | exact I].
Defined.

(** ** A manifest that is an array *)

(** X8: On a manifest whose document is an array the required-field tests are
    element tests: the diagnostic for a field is emitted exactly when no
    element of the array is the string naming the field; "manifest missing
    identifier field" is always emitted; nothing is raised. *)
Theorem manifest_array_document
    (repr_str : string -> string) path items errors :
  is_publication_manifest path = true ->
  exists out,
    validate repr_str path (JArray items) errors = Ok tt (errors ++ out) /\
    (forall r, In r ["identifier"; "title"] ->
       (In (MissingManifestField path r) out <-> ~ In (JString r) items)) /\
    In (ManifestMissingIdentifier path) out /\
    (forall p v, ~ In (ParentDirMismatch path p v) out).
Proof.
  intros Hm. eexists. rewrite validate_manifest by assumption.
  split; [apply check_manifest_array|].
  assert (Hex : forall r, existsb (eq_str r) items = true <-> In (JString r) items).
  { intros r. rewrite existsb_exists. split.
    - intros [x [Hin Hx]]. destruct x; try discriminate.
      simpl in Hx. apply String.eqb_eq in Hx. now subst.
    - intros Hin. exists (JString r). split; [exact Hin|].
      simpl. apply String.eqb_refl. }
  split; [|split].
  - intros r [<-|[<-|[]]]; rewrite <- Hex, !in_app_iff;
      destruct (existsb (eq_str "identifier") items),
        (existsb (eq_str "title") items);
      simpl; intuition (try discriminate; congruence).
  - rewrite !in_app_iff. right; right. now left.
  - intros p v. rewrite !in_app_iff.
    destruct (existsb (eq_str "identifier") items),
      (existsb (eq_str "title") items);
      simpl; intuition discriminate.
Qed.

Lemma manifest_array_document_witness :
  let path := "./publications/X/manifest.json" in
  let items := [JString "title"; JObject [("identifier", JString "X")]] in
  is_publication_manifest path = true /\
  exists out,
    validate repr_plain path (JArray items) [] = Ok tt ([] ++ out) /\
    (forall r, In r ["identifier"; "title"] ->
       (In (MissingManifestField path r) out <-> ~ In (JString r) items)) /\
    In (ManifestMissingIdentifier path) out /\
    (forall p v, ~ In (ParentDirMismatch path p v) out).
Proof.
  cbv zeta. split; [reflexivity|].
  apply (manifest_array_document repr_plain "./publications/X/manifest.json"
           [JString "title"; JObject [("identifier", JString "X")]] []).
  reflexivity.
Defined.

(** ** Paths built by the walk *)

#[local] Arguments Ascii.eqb : simpl never.

(** *** Concatenation, [s[:i]] and [s[i:]] *)

Lemma str_app_assoc (a b c : string) :
  ((a ++ b) ++ c)%string = (a ++ b ++ c)%string.
Proof. induction a as [|x a IH]; simpl; [reflexivity | now rewrite IH]. Qed.

Lemma str_app_nil_r (a : string) : (a ++ "")%string = a.
Proof. induction a as [|x a IH]; simpl; [reflexivity | now rewrite IH]. Qed.

Lemma drop_app (a s : string) n :
  PyStr.drop (String.length a + n) (a ++ s) = PyStr.drop n s.
Proof. induction a as [|x a IH]; simpl; [reflexivity | exact IH]. Qed.

Lemma take_app (a s : string) n :
  PyStr.take (String.length a + n) (a ++ s) = (a ++ PyStr.take n s)%string.
Proof. induction a as [|x a IH]; simpl; [reflexivity | now rewrite IH]. Qed.

Lemma take_drop (s : string) n :
  (PyStr.take n s ++ PyStr.drop n s)%string = s.
Proof.
  revert s; induction n as [|n IH]; intros [|x s]; simpl; try reflexivity.
  now rewrite IH.
Qed.

Lemma slash_free_app (a b : string) :
  slash_free (a ++ b) = slash_free a && slash_free b.
Proof.
  induction a as [|x a IH]; simpl; [reflexivity|].
  now rewrite IH, andb_assoc.
Qed.

(** *** [rfind], [endswith] and [rstrip] around the last separator *)

Lemma rfind_succ_from_free s i last :
  slash_free s = true ->
  PyStr.rfind_succ_from OsPath.sep_char s i last = last.
Proof.
  revert i last; induction s as [|x s IH]; intros i last H; simpl in *.
  - reflexivity.
  - apply andb_true_iff in H. destruct H as [Hx Hs].
    apply negb_true_iff in Hx. rewrite Hx. now apply IH.
Qed.

Lemma rfind_succ_from_sep a b i last :
  slash_free b = true ->
  PyStr.rfind_succ_from OsPath.sep_char (a ++ String OsPath.sep_char b) i last
  = i + String.length a + 1.
Proof.
  intros Hb. revert i last; induction a as [|x a IH]; intros i last; simpl.
  - rewrite ?Ascii.eqb_refl. rewrite rfind_succ_from_free by assumption. lia.
  - rewrite IH. lia.
Qed.

Lemma startswith_sep_free s :
  slash_free s = true -> PyStr.startswith s OsPath.sep = false.
Proof.
  destruct s as [|x s]; simpl; [reflexivity|]. intros H.
  apply andb_true_iff in H. destruct H as [Hx _].
  apply negb_true_iff in Hx. rewrite Ascii.eqb_sym in Hx.
  unfold OsPath.sep_char in Hx. now rewrite Hx.
Qed.

Lemma endswith_sep_inv s :
  PyStr.endswith s OsPath.sep = true -> exists r, s = (r ++ OsPath.sep)%string.
Proof.
  unfold PyStr.endswith. intros H. apply andb_true_iff in H.
  destruct H as [_ H]. apply String.eqb_eq in H.
  exists (PyStr.take (String.length s - String.length OsPath.sep) s).
  pose proof (take_drop s (String.length s - String.length OsPath.sep)) as E.
  rewrite H in E. now symmetry.
Qed.

Lemma endswith_sep_cons x y s :
  PyStr.endswith (String x (String y s)) OsPath.sep
  = PyStr.endswith (String y s) OsPath.sep.
Proof.
  unfold PyStr.endswith. cbn [String.length OsPath.sep Nat.leb Nat.sub].
  rewrite Nat.sub_0_r. reflexivity.
Qed.

(** A path that is not empty and does not end in the separator ends in
    another character. *)
Lemma not_endswith_sep_inv s :
  s <> EmptyString -> PyStr.endswith s OsPath.sep = false ->
  exists r a, s = (r ++ String a "")%string
              /\ Ascii.eqb a OsPath.sep_char = false.
Proof.
  induction s as [|x s IH]; intros Hne H; [congruence|].
  destruct s as [|y s].
  - exists EmptyString, x. split; [reflexivity|].
    unfold PyStr.endswith in H. simpl in H.
    destruct (Ascii.eqb x "/") eqn:E; [discriminate | exact E].
  - rewrite endswith_sep_cons in H.
    destruct IH as [r [a [E Ha]]]; [discriminate | exact H |].
    exists (String x r), a. simpl. now rewrite E.
Qed.

Lemma endswith_sep_snoc r a :
  PyStr.endswith (r ++ String a "") OsPath.sep = Ascii.eqb a OsPath.sep_char.
Proof.
  induction r as [|x r IH].
  - unfold PyStr.endswith, OsPath.sep_char. simpl.
    now destruct (Ascii.eqb a "/").
  - destruct r as [|y r]; simpl in *.
    + rewrite endswith_sep_cons. exact IH.
    + rewrite endswith_sep_cons. exact IH.
Qed.

Lemma rstrip_snoc_sep s :
  PyStr.rstrip OsPath.sep_char (s ++ OsPath.sep) = PyStr.rstrip OsPath.sep_char s.
Proof.
  induction s as [|x s IH]; simpl.
  - rewrite ?Ascii.eqb_refl. reflexivity.
  - change (s ++ "/")%string with (s ++ OsPath.sep)%string. now rewrite IH.
Qed.

Lemma rstrip_snoc_other r a :
  Ascii.eqb a OsPath.sep_char = false ->
  PyStr.rstrip OsPath.sep_char (r ++ String a "") = (r ++ String a "")%string.
Proof.
  intros Ha. induction r as [|x r IH]; simpl.
  - now rewrite Ha.
  - rewrite IH. now destruct r.
Qed.

Lemma all_char_snoc_other r a :
  Ascii.eqb a OsPath.sep_char = false ->
  PyStr.all_char OsPath.sep_char (r ++ String a "") = false.
Proof.
  intros Ha. induction r as [|x r IH]; simpl.
  - now rewrite Ha.
  - rewrite IH. apply andb_false_r.
Qed.

Lemma all_char_app c a b :
  PyStr.all_char c (a ++ b) = PyStr.all_char c a && PyStr.all_char c b.
Proof.
  induction a as [|x a IH]; simpl; [reflexivity|].
  now rewrite IH, andb_assoc.
Qed.

(** A name ends in a character that is not the separator. *)
Lemma name_snoc d :
  is_name d = true ->
  exists r a, d = (r ++ String a "")%string
              /\ Ascii.eqb a OsPath.sep_char = false.
Proof.
  unfold is_name. intros H. apply andb_true_iff in H. destruct H as [Hne Hf].
  induction d as [|x d IH]; [discriminate|].
  simpl in Hf. apply andb_true_iff in Hf. destruct Hf as [Hx Hd].
  destruct d as [|y d].
  - exists EmptyString, x. split; [reflexivity | now apply negb_true_iff].
  - destruct IH as [r [a [E Ha]]]; [reflexivity | exact Hd |].
    exists (String x r), a. simpl. now rewrite E.
Qed.

(** *** [basename], [dirname] and [join] *)

Lemma basename_free s : slash_free s = true -> OsPath.basename s = s.
Proof.
  intros H. unfold OsPath.basename, PyStr.rfind_succ.
  now rewrite rfind_succ_from_free.
Qed.

Lemma basename_sep a b :
  slash_free b = true -> OsPath.basename (a ++ OsPath.sep ++ b) = b.
Proof.
  intros H. unfold OsPath.basename, PyStr.rfind_succ.
  change (a ++ OsPath.sep ++ b)%string with (a ++ String OsPath.sep_char b)%string.
  rewrite rfind_succ_from_sep by assumption. cbn [Nat.add].
  now rewrite drop_app.
Qed.

Lemma join_free root fname :
  slash_free fname = true ->
  OsPath.join root fname =
  if String.eqb root "" || PyStr.endswith root OsPath.sep
  then (root ++ fname)%string
  else (root ++ OsPath.sep ++ fname)%string.
Proof.
  intros H. unfold OsPath.join. now rewrite startswith_sep_free.
Qed.

(** [basename] undoes [join]: the last component added to a path is what
    [basename] gives back, whatever the path before it, when the component
    has no separator. *)
Lemma basename_join_name root fname :
  slash_free fname = true ->
  OsPath.basename (OsPath.join root fname) = fname.
Proof.
  intros H. rewrite join_free by assumption.
  destruct (String.eqb_spec root "") as [->|Hne]; cbn [orb].
  - now apply basename_free.
  - destruct (PyStr.endswith root OsPath.sep) eqn:E.
    + destruct (endswith_sep_inv _ E) as [r ->].
      rewrite str_app_assoc. now apply basename_sep.
    + now apply basename_sep.
Qed.

(** X9: [os.path.basename] undoes [os.path.join]: joining a component without
    separator to any path and taking the base name gives the component
    back. *)
Theorem basename_of_join root fname :
  slash_free fname = true ->
  OsPath.basename (OsPath.join root fname) = fname.
Proof. apply basename_join_name. Qed.

Lemma basename_of_join_witness :
  slash_free "manifest.json" = true /\
  OsPath.basename (OsPath.join "./publications/X/" "manifest.json")
    = "manifest.json".
Proof.
  split; [reflexivity|].
  apply (basename_of_join "./publications/X/" "manifest.json"). reflexivity.
Defined.

(** [dirname] undoes [join] on a path that is not empty and does not end in
    the separator. *)
Lemma dirname_join_name root fname :
  root <> EmptyString ->
  PyStr.endswith root OsPath.sep = false ->
  slash_free fname = true ->
  OsPath.join root fname = (root ++ OsPath.sep ++ fname)%string /\
  OsPath.dirname (OsPath.join root fname) = root.
Proof.
  intros Hne He Hf. rewrite join_free by assumption.
  destruct (String.eqb_spec root "") as [->|_]; [congruence|].
  rewrite He. cbn [orb]. split; [reflexivity|].
  destruct (not_endswith_sep_inv root Hne He) as [r [a [-> Ha]]].
  unfold OsPath.dirname, PyStr.rfind_succ.
  change ((r ++ String a "") ++ OsPath.sep ++ fname)%string
    with ((r ++ String a "") ++ String OsPath.sep_char fname)%string.
  rewrite rfind_succ_from_sep by assumption. cbn [Nat.add].
  rewrite take_app. cbn [PyStr.take].
  change (String OsPath.sep_char "") with OsPath.sep.
  rewrite all_char_app, all_char_snoc_other by assumption. cbn [andb negb].
  rewrite andb_true_r.
  assert (Hnz : String.eqb ((r ++ String a "") ++ OsPath.sep) "" = false)
    by (destruct r; reflexivity).
  rewrite Hnz. cbn [negb].
  now rewrite rstrip_snoc_sep, rstrip_snoc_other.
Qed.

(** X10: [os.path.dirname] undoes [os.path.join]: on a path that is not empty
    and does not end in the separator, joining a component without separator
    puts one separator between the two, and the directory name of the result
    is the path. *)
Theorem dirname_of_join root fname :
  root <> EmptyString ->
  PyStr.endswith root OsPath.sep = false ->
  slash_free fname = true ->
  OsPath.join root fname = (root ++ OsPath.sep ++ fname)%string /\
  OsPath.dirname (OsPath.join root fname) = root.
Proof. apply dirname_join_name. Qed.

Lemma dirname_of_join_witness :
  "./publications/X" <> EmptyString /\
  PyStr.endswith "./publications/X" OsPath.sep = false /\
  slash_free "manifest.json" = true /\
  OsPath.join "./publications/X" "manifest.json"
    = "./publications/X/manifest.json" /\
  OsPath.dirname (OsPath.join "./publications/X" "manifest.json")
    = "./publications/X".
Proof.
  split; [discriminate|]. split; [reflexivity|]. split; [reflexivity|].
  apply (dirname_of_join "./publications/X" "manifest.json");
    [discriminate | reflexivity | reflexivity].
Defined.

(** *** The shape of the paths of the walk *)

Lemma join_name_shape root d :
  root <> EmptyString ->
  PyStr.endswith root OsPath.sep = false ->
  is_name d = true ->
  OsPath.join root d = (root ++ OsPath.sep ++ d)%string /\
  OsPath.join root d <> EmptyString /\
  PyStr.endswith (OsPath.join root d) OsPath.sep = false.
Proof.
  intros Hne He Hd.
  assert (Hf : slash_free d = true)
    by (unfold is_name in Hd; now apply andb_true_iff in Hd).
  destruct (dirname_join_name root d Hne He Hf) as [E _].
  rewrite E. split; [reflexivity|]. split.
  - destruct root; [congruence | discriminate].
  - destruct (name_snoc d Hd) as [r [a [-> Ha]]].
    change (root ++ OsPath.sep ++ r ++ String a "")%string
      with (root ++ (OsPath.sep ++ r) ++ String a "")%string.
    rewrite <- str_app_assoc. now rewrite endswith_sep_snoc.
Qed.

Lemma fold_join_shape dirs :
  Forall (fun d => is_name d = true) dirs ->
  forall root,
    root <> EmptyString ->
    PyStr.endswith root OsPath.sep = false ->
    fold_left OsPath.join dirs root = (root ++ segments dirs)%string /\
    fold_left OsPath.join dirs root <> EmptyString /\
    PyStr.endswith (fold_left OsPath.join dirs root) OsPath.sep = false.
Proof.
  induction 1 as [|d dirs Hd Hall IH]; intros root Hne He; cbn [fold_left segments].
  - rewrite str_app_nil_r. auto.
  - destruct (join_name_shape root d Hne He Hd) as [E [Hne' He']].
    destruct (IH _ Hne' He') as [E2 [Hne2 He2]].
    split; [|auto]. rewrite E2, E. now rewrite !str_app_assoc.
Qed.

(** The path of a file is the text [.], then [/] and a directory name for
    each directory on the way, then [/] and the file's name. *)
Lemma walk_path_shape dirs fname :
  Forall (fun d => is_name d = true) dirs ->
  slash_free fname = true ->
  walk_path dirs fname = ("." ++ segments dirs ++ OsPath.sep ++ fname)%string.
Proof.
  intros Hd Hf. unfold walk_path.
  destruct (fold_join_shape dirs Hd ".") as [E [Hne He]];
    [discriminate | reflexivity |].
  destruct (dirname_join_name _ fname Hne He Hf) as [Ej _].
  rewrite Ej, E. now rewrite str_app_assoc.
Qed.

(** For a file the walk reaches, [basename] gives its name, [dirname] the
    path of its directory, and [basename] of that the name of the directory
    holding the file. *)
Lemma walk_path_parent dirs d fname :
  Forall (fun s => is_name s = true) dirs ->
  is_name d = true ->
  slash_free fname = true ->
  let path := walk_path (dirs ++ [d]) fname in
  OsPath.basename path = fname /\
  OsPath.dirname path = fold_left OsPath.join (dirs ++ [d]) "." /\
  OsPath.basename (OsPath.dirname path) = d.
Proof.
  intros Hdirs Hd Hf path. unfold path, walk_path.
  assert (Hall : Forall (fun s => is_name s = true) (dirs ++ [d]))
    by (apply Forall_app; auto).
  destruct (fold_join_shape _ Hall ".") as [E [Hne He]];
    [discriminate | reflexivity |].
  split; [now apply basename_join_name|].
  destruct (dirname_join_name _ fname Hne He Hf) as [_ Edir].
  split; [exact Edir|]. rewrite Edir.
  rewrite fold_left_app. cbn [fold_left].
  apply basename_join_name.
  unfold is_name in Hd. now apply andb_true_iff in Hd.
Qed.

(** X11: For the path the walk builds for a file, [basename] is the file's
    name, [dirname] the path of the directory holding it, and the parent
    directory the manifest branch compares with is the name of that
    directory. *)
Theorem parent_directory_of_walk_path dirs d fname :
  Forall (fun s => is_name s = true) dirs ->
  is_name d = true ->
  slash_free fname = true ->
  let path := walk_path (dirs ++ [d]) fname in
  OsPath.basename path = fname /\
  OsPath.dirname path = fold_left OsPath.join (dirs ++ [d]) "." /\
  OsPath.basename (OsPath.dirname path) = d.
Proof. apply walk_path_parent. Qed.

Lemma parent_directory_of_walk_path_witness :
  let path := walk_path (["publications"] ++ ["X"]) "manifest.json" in
  Forall (fun s => is_name s = true) ["publications"] /\
  is_name "X" = true /\
  slash_free "manifest.json" = true /\
  OsPath.basename path = "manifest.json" /\
  OsPath.dirname path = fold_left OsPath.join (["publications"] ++ ["X"]) "." /\
  OsPath.basename (OsPath.dirname path) = "X".
Proof.
  cbv zeta.
  assert (H : Forall (fun s => is_name s = true) ["publications"])
    by (repeat constructor).
  split; [exact H|]. split; [reflexivity|]. split; [reflexivity|].
  apply (parent_directory_of_walk_path ["publications"] "X" "manifest.json");
    [exact H | reflexivity | reflexivity].
Defined.

(** *** Directory names and the substring tests of the classification *)

Lemma startswith_free_sep f x :
  slash_free f = true -> slash_free x = true ->
  PyStr.startswith f (x ++ OsPath.sep) = false.
Proof.
  revert f; induction x as [|b x IH]; intros [|a f] Hf Hx;
    cbn [String.append PyStr.startswith OsPath.sep]; try reflexivity.
  - cbn [slash_free] in Hf. apply andb_true_iff in Hf. destruct Hf as [Ha _].
    apply negb_true_iff in Ha. rewrite Ascii.eqb_sym in Ha.
    unfold OsPath.sep_char in Ha. now rewrite Ha.
  - cbn [slash_free] in Hf, Hx.
    apply andb_true_iff in Hf. destruct Hf as [_ Hf].
    apply andb_true_iff in Hx. destruct Hx as [_ Hx].
    change (x ++ "/")%string with (x ++ OsPath.sep)%string.
    rewrite IH by assumption. apply andb_false_r.
Qed.

(** At the start of a text, a name followed by the separator is found
    exactly when the text starts with that very name and the separator. *)
Lemma startswith_name_sep d x rest :
  slash_free d = true -> slash_free x = true ->
  PyStr.startswith (d ++ OsPath.sep ++ rest) (x ++ OsPath.sep)
  = String.eqb d x.
Proof.
  revert x; induction d as [|a d IH]; intros [|b x] Hd Hx;
    cbn [String.append PyStr.startswith OsPath.sep String.eqb].
  - now destruct rest.
  - cbn [slash_free] in Hx. apply andb_true_iff in Hx. destruct Hx as [Hb _].
    apply negb_true_iff in Hb. unfold OsPath.sep_char in Hb. now rewrite Hb.
  - cbn [slash_free] in Hd. apply andb_true_iff in Hd. destruct Hd as [Ha _].
    apply negb_true_iff in Ha. rewrite Ascii.eqb_sym in Ha.
    unfold OsPath.sep_char in Ha. now rewrite Ha.
  - cbn [slash_free] in Hd, Hx.
    apply andb_true_iff in Hd. destruct Hd as [_ Hd].
    apply andb_true_iff in Hx. destruct Hx as [_ Hx].
    change (d ++ "/" ++ rest)%string with (d ++ OsPath.sep ++ rest)%string.
    change (x ++ "/")%string with (x ++ OsPath.sep)%string.
    rewrite IH by assumption. now rewrite (Ascii.eqb_sym b a).
Qed.

(** Inside a name no occurrence of a text that starts with the separator
    can begin. *)
Lemma contains_sep_skip_free d x rest :
  slash_free d = true ->
  PyStr.contains (String OsPath.sep_char x) (d ++ rest)
  = PyStr.contains (String OsPath.sep_char x) rest.
Proof.
  induction d as [|a d IH]; intros Hd; [reflexivity|].
  cbn [slash_free] in Hd. apply andb_true_iff in Hd. destruct Hd as [Ha Hd].
  apply negb_true_iff in Ha. rewrite Ascii.eqb_sym in Ha.
  cbn [String.append PyStr.contains PyStr.startswith].
  rewrite Ha. cbn [andb orb]. now apply IH.
Qed.

Lemma contains_sep_free x f :
  slash_free f = true ->
  PyStr.contains (String OsPath.sep_char x) f = false.
Proof.
  intros Hf. rewrite <- (str_app_nil_r f).
  rewrite contains_sep_skip_free by assumption. reflexivity.
Qed.

(** The test [sep + x + sep in path] on the part of a path after a
    directory's own path: it holds exactly when one of the directories below
    is named [x]. *)
Lemma contains_segment dirs fname x :
  Forall (fun d => is_name d = true) dirs ->
  slash_free fname = true ->
  slash_free x = true ->
  PyStr.contains (OsPath.sep ++ x ++ OsPath.sep)
                 (segments dirs ++ OsPath.sep ++ fname)
  = existsb (String.eqb x) dirs.
Proof.
  intros Hdirs Hf Hx.
  change (OsPath.sep ++ x ++ OsPath.sep)%string
    with (String OsPath.sep_char (x ++ OsPath.sep)).
  induction Hdirs as [|d dirs Hd Hall IH]; cbn [segments existsb].
  - change ("" ++ OsPath.sep ++ fname)%string
      with (String OsPath.sep_char fname).
    cbn [PyStr.contains PyStr.startswith].
    rewrite Ascii.eqb_refl. cbn [andb].
    rewrite startswith_free_sep by assumption.
    now rewrite contains_sep_free.
  - assert (Hdf : slash_free d = true)
      by (unfold is_name in Hd; now apply andb_true_iff in Hd).
    change ((OsPath.sep ++ d ++ segments dirs) ++ OsPath.sep ++ fname)%string
      with (String OsPath.sep_char
              ((d ++ segments dirs) ++ OsPath.sep ++ fname)).
    cbn [PyStr.contains PyStr.startswith].
    rewrite Ascii.eqb_refl. cbn [andb].
    rewrite str_app_assoc, contains_sep_skip_free, IH by assumption.
    f_equal.
    destruct dirs as [|d' dirs].
    + cbn [segments String.append]. rewrite startswith_name_sep by assumption.
      apply String.eqb_sym.
    + cbn [segments]. rewrite !str_app_assoc.
      rewrite startswith_name_sep by assumption. apply String.eqb_sym.
Qed.

Lemma contains_segment_walk_path dirs fname x :
  Forall (fun d => is_name d = true) dirs ->
  slash_free fname = true ->
  slash_free x = true ->
  PyStr.contains (OsPath.sep ++ x ++ OsPath.sep) (walk_path dirs fname)
  = existsb (String.eqb x) dirs.
Proof.
  intros Hdirs Hf Hx. rewrite walk_path_shape by assumption.
  rewrite <- (contains_segment dirs fname x) by assumption.
  change (OsPath.sep ++ x ++ OsPath.sep)%string
    with (String OsPath.sep_char (x ++ OsPath.sep)).
  change ("." ++ segments dirs ++ OsPath.sep ++ fname)%string
    with (String "."%char (segments dirs ++ OsPath.sep ++ fname)).
  cbn [PyStr.contains PyStr.startswith]. reflexivity.
Qed.

(** For a file the walk reaches, the manifest test holds exactly when the
    file is named [manifest.json] and some directory on the way from the
    working directory is named [publications]; the dialogues test, when the
    file is named [dialogues.json] and some directory on the way is named
    [segments]; the test of the last branch, when some directory on the way
    is named [publications].  Only whole names count. *)
Lemma walk_path_classes dirs fname :
  Forall (fun d => is_name d = true) dirs ->
  slash_free fname = true ->
  is_publication_manifest (walk_path dirs fname)
    = String.eqb fname "manifest.json"
      && existsb (String.eqb "publications") dirs /\
  is_dialogues (walk_path dirs fname)
    = String.eqb fname "dialogues.json"
      && existsb (String.eqb "segments") dirs /\
  in_publications (walk_path dirs fname)
    = existsb (String.eqb "publications") dirs.
Proof.
  intros Hdirs Hf.
  unfold is_publication_manifest, is_dialogues, in_publications.
  rewrite !contains_segment_walk_path by (assumption || reflexivity).
  unfold walk_path. rewrite basename_join_name by assumption. auto.
Qed.

(** X12: For the path the walk builds for a file: the manifest test holds
    exactly when the file is named [manifest.json] and a directory on the way
    is named [publications]; the dialogues test, when the file is named
    [dialogues.json] and a directory on the way is named [segments]; the test
    of the last branch, when a directory on the way is named [publications].
    A directory whose name only contains [publications] does not count. *)
Theorem classification_by_directory_names dirs fname :
  Forall (fun d => is_name d = true) dirs ->
  slash_free fname = true ->
  is_publication_manifest (walk_path dirs fname)
    = String.eqb fname "manifest.json"
      && existsb (String.eqb "publications") dirs /\
  is_dialogues (walk_path dirs fname)
    = String.eqb fname "dialogues.json"
      && existsb (String.eqb "segments") dirs /\
  in_publications (walk_path dirs fname)
    = existsb (String.eqb "publications") dirs.
Proof. apply walk_path_classes. Qed.

Lemma classification_by_directory_names_witness :
  let dirs := ["site"; "mypublications"; "X"] in
  Forall (fun d => is_name d = true) dirs /\
  slash_free "manifest.json" = true /\
  is_publication_manifest (walk_path dirs "manifest.json") = false /\
  is_dialogues (walk_path dirs "manifest.json") = false /\
  in_publications (walk_path dirs "manifest.json") = false.
Proof.
  cbv zeta.
  assert (H : Forall (fun d => is_name d = true) ["site"; "mypublications"; "X"])
    by (repeat constructor).
  split; [exact H|]. split; [reflexivity|].
  apply (classification_by_directory_names
           ["site"; "mypublications"; "X"] "manifest.json");
    [exact H | reflexivity].
Defined.

(** ** A manifest against the directory it lies in *)

(** X13: A manifest the walk reaches in a directory named [d], below a directory
    named [publications] (or in it), whose document is an object with the
    keys [identifier] and [title], the identifier not being [null]: it passes
    when the [str] of the identifier is [d], and otherwise gets one
    diagnostic, the mismatch warning naming [d] and the identifier. *)
Theorem manifest_checked_against_its_directory
    (repr_str : string -> string) dirs d members errors :
  Forall (fun s => is_name s = true) dirs ->
  is_name d = true ->
  existsb (String.eqb "publications") (dirs ++ [d]) = true ->
  dict_contains "identifier" (JObject members) = true ->
  dict_contains "title" (JObject members) = true ->
  dict_get "identifier" (JObject members) <> JNull ->
  let path := walk_path (dirs ++ [d]) "manifest.json" in
  let identifier := dict_get "identifier" (JObject members) in
  validate repr_str path (JObject members) errors =
  Ok tt (errors ++ if String.eqb d (py_str repr_str identifier) then []
                   else [ParentDirMismatch path d identifier]).
Proof.
  intros Hdirs Hd Hpub Hid Htitle Hnull path identifier.
  assert (Hall : Forall (fun s => is_name s = true) (dirs ++ [d]))
    by (apply Forall_app; auto).
  destruct (walk_path_classes (dirs ++ [d]) "manifest.json" Hall eq_refl)
    as [Hm _].
  rewrite Hpub in Hm. cbn [String.eqb andb] in Hm.
  assert (Hm' : is_publication_manifest path = true) by exact Hm.
  destruct (walk_path_parent dirs d "manifest.json" Hdirs Hd eq_refl)
    as [_ [_ Hparent]].
  rewrite validate_manifest, check_manifest_object by assumption.
  unfold required_field_diags, identifier_diags. rewrite Hid, Htitle.
  cbv zeta. unfold get_identifier_from, identifier_keys.
  cbn [first_key_value isinstance_dict andb app]. rewrite Hid.
  fold path in Hparent. rewrite Hparent. fold identifier.
  destruct (is_None identifier) eqn:En.
  - apply is_None_iff in En. now elim Hnull.
  - reflexivity.
Qed.

Lemma manifest_checked_against_its_directory_witness :
  let dirs := ["publications"] in
  let members := [("identifier", JInt 12); ("title", JString "T")] in
  Forall (fun s => is_name s = true) dirs /\
  is_name "12" = true /\
  existsb (String.eqb "publications") (dirs ++ ["12"]) = true /\
  dict_contains "identifier" (JObject members) = true /\
  dict_contains "title" (JObject members) = true /\
  dict_get "identifier" (JObject members) <> JNull /\
  validate repr_plain (walk_path (dirs ++ ["12"]) "manifest.json")
    (JObject members) [] = Ok tt [].
Proof.
  cbv zeta.
  assert (H : Forall (fun s => is_name s = true) ["publications"])
    by (repeat constructor).
  split; [exact H|]. repeat (split; [first [reflexivity | discriminate]|]).
  apply (manifest_checked_against_its_directory repr_plain ["publications"]
           "12" [("identifier", JInt 12); ("title", JString "T")] []);
    first [exact H | reflexivity | discriminate].
Defined.

(** ** [normpath] and the recent test on the paths of the walk *)

Lemma str_length_app (a b : string) :
  String.length (a ++ b) = String.length a + String.length b.
Proof. induction a as [|x a IH]; simpl; [reflexivity | now rewrite IH]. Qed.

(** [s.endswith(suf)] holds exactly when [s] is some text followed by
    [suf]. *)
Lemma endswith_iff s suf :
  PyStr.endswith s suf = true <-> exists pre, s = (pre ++ suf)%string.
Proof.
  unfold PyStr.endswith. rewrite andb_true_iff, Nat.leb_le, String.eqb_eq.
  split.
  - intros [_ H].
    exists (PyStr.take (String.length s - String.length suf) s).
    rewrite <- H at 2. symmetry. apply take_drop.
  - intros [pre ->]. rewrite str_length_app. split; [lia|].
    replace (String.length pre + String.length suf - String.length suf)
      with (String.length pre + 0) by lia.
    now rewrite drop_app.
Qed.

Lemma segments_app a b :
  segments (a ++ b) = (segments a ++ segments b)%string.
Proof.
  induction a as [|d a IH]; cbn [segments app]; [reflexivity|].
  rewrite IH. now rewrite !str_app_assoc.
Qed.

Lemma join_segments n ns :
  PyStr.join OsPath.sep (n :: ns) = (n ++ segments ns)%string.
Proof.
  revert n; induction ns as [|m ns IH]; intros n.
  - cbn [PyStr.join segments]. now rewrite str_app_nil_r.
  - change (PyStr.join OsPath.sep (n :: m :: ns))
      with (n ++ OsPath.sep ++ PyStr.join OsPath.sep (m :: ns))%string.
    rewrite IH. reflexivity.
Qed.

Lemma join_snoc l x :
  l <> [] ->
  PyStr.join OsPath.sep (l ++ [x])
  = (PyStr.join OsPath.sep l ++ OsPath.sep ++ x)%string.
Proof.
  destruct l as [|n l]; [congruence|]. intros _.
  change ((n :: l) ++ [x]) with (n :: (l ++ [x])).
  rewrite !join_segments, segments_app. cbn [segments].
  now rewrite str_app_nil_r, str_app_assoc.
Qed.

(** [split] takes a path apart at its separators. *)
Lemma split_segments ns :
  Forall (fun n => slash_free n = true) ns ->
  forall s, slash_free s = true ->
    PyStr.split OsPath.sep_char (s ++ segments ns) = s :: ns.
Proof.
  induction 1 as [|d ns Hd Hall IH]; intros s Hs.
  - cbn [segments]. rewrite str_app_nil_r.
    induction s as [|a s IHs]; [reflexivity|].
    cbn [slash_free] in Hs. apply andb_true_iff in Hs. destruct Hs as [Ha Hs].
    apply negb_true_iff in Ha. cbn [PyStr.split]. rewrite Ha.
    now rewrite IHs.
  - induction s as [|a s IHs].
    + cbn [segments String.append].
      change (OsPath.sep ++ d ++ segments ns)%string
        with (String OsPath.sep_char (d ++ segments ns)).
      cbn [PyStr.split]. rewrite Ascii.eqb_refl. now rewrite IH.
    + cbn [slash_free] in Hs. apply andb_true_iff in Hs.
      destruct Hs as [Ha Hs]. apply negb_true_iff in Ha.
      cbn [String.append PyStr.split]. rewrite Ha. now rewrite IHs.
Qed.

Lemma is_entry_inv s :
  is_entry s = true ->
  is_name s = true /\ slash_free s = true /\
  String.eqb s "" = false /\ String.eqb s "." = false
  /\ String.eqb s ".." = false.
Proof.
  unfold is_entry, is_name. intros H.
  repeat (apply andb_true_iff in H; destruct H as [H ?]).
  repeat match goal with
    | H : negb _ = true |- _ => apply negb_true_iff in H
    end.
  rewrite H, H2. cbn [negb andb]. auto.
Qed.

(** Names of entries pass through the loop of [normpath] unchanged. *)
Lemma normpath_comps_entries names :
  Forall (fun n => is_entry n = true) names ->
  forall acc, OsPath.normpath_comps 0 names acc = rev acc ++ names.
Proof.
  induction 1 as [|n names Hn Hall IH]; intros acc; cbn [OsPath.normpath_comps].
  - now rewrite app_nil_r.
  - destruct (is_entry_inv n Hn) as [_ [_ [H1 [H2 H3]]]].
    rewrite H1, H2, H3. cbn [orb negb]. rewrite IH. cbn [rev].
    now rewrite <- app_assoc.
Qed.

Lemma Forall_entry_free names :
  Forall (fun n => is_entry n = true) names ->
  Forall (fun n => slash_free n = true) names
  /\ Forall (fun n => is_name n = true) names.
Proof.
  intros H. split; eapply Forall_impl; try exact H;
    intros n Hn; now destruct (is_entry_inv n Hn) as [? [? _]].
Qed.

(** On the path the walk builds, [normpath] removes the leading [./] and
    nothing else: what is left is the names joined by the separator. *)
Lemma normpath_walk_path dirs fname :
  Forall (fun d => is_entry d = true) dirs ->
  is_entry fname = true ->
  OsPath.normpath (walk_path dirs fname)
  = PyStr.join OsPath.sep (dirs ++ [fname]).
Proof.
  intros Hdirs Hf.
  destruct (Forall_entry_free dirs Hdirs) as [Hfree Hnames].
  destruct (is_entry_inv fname Hf) as [_ [Hff [Hfne _]]].
  assert (Hall : Forall (fun n => is_entry n = true) (dirs ++ [fname]))
    by (apply Forall_app; auto).
  destruct (Forall_entry_free _ Hall) as [Hallfree _].
  rewrite walk_path_shape by assumption.
  replace (segments dirs ++ OsPath.sep ++ fname)%string
    with (segments (dirs ++ [fname]))
    by (rewrite segments_app; cbn [segments]; now rewrite str_app_nil_r).
  unfold OsPath.normpath.
  change (String.eqb ("." ++ segments (dirs ++ [fname])) "") with false.
  change (PyStr.startswith ("." ++ segments (dirs ++ [fname])) OsPath.sep)
    with false.
  cbv iota zeta.
  rewrite (split_segments _ Hallfree "." eq_refl).
  change (OsPath.normpath_comps 0 ("." :: dirs ++ [fname]) [])
    with (OsPath.normpath_comps 0 (dirs ++ [fname]) []).
  rewrite (normpath_comps_entries _ Hall []). cbn [rev app].
  destruct dirs as [|d0 dirs].
  - cbn [app PyStr.join]. now rewrite Hfne.
  - change ((d0 :: dirs) ++ [fname]) with (d0 :: (dirs ++ [fname])).
    rewrite join_segments.
    inversion Hdirs as [|? ? Hd0 _]; subst.
    destruct (is_entry_inv d0 Hd0) as [_ [_ [Hd0ne _]]].
    destruct d0; [discriminate | reflexivity].
Qed.

Lemma rfind_succ_from_app_free a q i last :
  slash_free q = true ->
  PyStr.rfind_succ_from OsPath.sep_char (a ++ q) i last
  = PyStr.rfind_succ_from OsPath.sep_char a i last.
Proof.
  intros Hq. revert i last; induction a as [|x a IH]; intros i last;
    cbn [String.append PyStr.rfind_succ_from].
  - now apply rfind_succ_from_free.
  - apply IH.
Qed.

Lemma rfind_succ_from_bound c a i last :
  PyStr.rfind_succ_from c a i last <= Nat.max last (i + String.length a).
Proof.
  revert i last; induction a as [|x a IH]; intros i last;
    cbn [PyStr.rfind_succ_from String.length].
  - lia.
  - specialize (IH (S i) (if Ascii.eqb x c then S i else last)).
    destruct (Ascii.eqb x c); lia.
Qed.

Lemma drop_app_le a s n :
  n <= String.length a ->
  PyStr.drop n (a ++ s) = (PyStr.drop n a ++ s)%string.
Proof.
  revert a; induction n as [|n IH]; intros [|x a] H; simpl in *;
    try reflexivity; try lia.
  apply IH. lia.
Qed.

(** Text without separator added to a path is added to its base name. *)
Lemma basename_app_free pre q :
  slash_free q = true ->
  OsPath.basename (pre ++ q) = (OsPath.basename pre ++ q)%string.
Proof.
  intros Hq. unfold OsPath.basename, PyStr.rfind_succ.
  rewrite rfind_succ_from_app_free by assumption.
  apply drop_app_le.
  pose proof (rfind_succ_from_bound OsPath.sep_char pre 0 0). lia.
Qed.

Lemma str_app_inv_tail a b c :
  (a ++ c)%string = (b ++ c)%string -> a = b.
Proof.
  intros H.
  assert (Hlen : String.length a = String.length b).
  { apply (f_equal String.length) in H. rewrite !str_length_app in H. lia. }
  pose proof (take_app a c 0) as Ha. pose proof (take_app b c 0) as Hb.
  rewrite Nat.add_0_r in Ha, Hb. rewrite H, Hlen, Hb in Ha.
  assert (Hz : forall s, PyStr.take 0 s = EmptyString) by (now intros []).
  rewrite !Hz, !str_app_nil_r in Ha. now symmetry.
Qed.

Lemma basename_join_names ds d :
  Forall (fun n => slash_free n = true) (ds ++ [d]) ->
  OsPath.basename (PyStr.join OsPath.sep (ds ++ [d])) = d /\
  exists before, PyStr.join OsPath.sep (ds ++ [d]) = (before ++ d)%string.
Proof.
  intros H. apply Forall_app in H. destruct H as [_ Hd].
  inversion Hd as [|? ? Hdf _]; subst.
  destruct ds as [|n ds].
  - cbn [app PyStr.join]. split; [now apply basename_free|].
    now exists EmptyString.
  - rewrite join_snoc by discriminate. split; [now apply basename_sep|].
    exists (PyStr.join OsPath.sep (n :: ds) ++ OsPath.sep)%string.
    now rewrite str_app_assoc.
Qed.

(** For the path the walk builds for a file, the recent test holds exactly
    when the file is named [recent.json] and lies in a directory whose name
    ends in [publications]; the directories above do not matter. *)
Lemma is_recent_walk_path dirs fname :
  Forall (fun d => is_entry d = true) dirs ->
  is_entry fname = true ->
  is_recent (walk_path dirs fname) = true <->
  fname = "recent.json" /\
  exists ds d, dirs = ds ++ [d] /\ PyStr.endswith d "publications" = true.
Proof.
  intros Hdirs Hf. unfold is_recent.
  rewrite normpath_walk_path by assumption.
  change (OsPath.join "publications" "recent.json")
    with ("publications" ++ OsPath.sep ++ "recent.json")%string.
  destruct (Forall_entry_free dirs Hdirs) as [Hfree _].
  destruct (is_entry_inv fname Hf) as [_ [Hff _]].
  rewrite endswith_iff. split.
  - intros [pre E]. destruct dirs as [|d0 dirs0].
    + cbn [app PyStr.join] in E.
      apply (f_equal slash_free) in E. rewrite Hff in E.
      rewrite slash_free_app in E.
      change (slash_free ("publications" ++ OsPath.sep ++ "recent.json"))
        with false in E.
      rewrite andb_false_r in E. discriminate.
    + destruct (@exists_last _ (d0 :: dirs0)) as [ds [d Eds]];
        [discriminate|].
      rewrite Eds in *. clear Eds.
      rewrite join_snoc in E by (now destruct ds).
      rewrite <- (str_app_assoc pre "publications") in E.
      assert (Ef : fname = "recent.json").
      { apply (f_equal OsPath.basename) in E.
        rewrite !basename_sep in E by (assumption || reflexivity). exact E. }
      subst fname. apply str_app_inv_tail in E.
      destruct (basename_join_names ds d Hfree) as [Hb _].
      apply (f_equal OsPath.basename) in E.
      rewrite Hb, basename_app_free in E by reflexivity.
      split; [reflexivity|]. exists ds, d. split; [reflexivity|].
      apply endswith_iff. now exists (OsPath.basename pre).
  - intros [-> [ds [d [-> Hd]]]].
    apply endswith_iff in Hd. destruct Hd as [pre' ->].
    destruct (basename_join_names ds _ Hfree) as [_ [before Eb]].
    rewrite join_snoc by (now destruct ds).
    rewrite Eb. exists (before ++ pre')%string.
    now rewrite !str_app_assoc.
Qed.

(** X14: On the path the walk builds for a file, [os.path.normpath] removes the
    leading [./] and nothing else: the result is the names of the
    directories on the way and of the file, joined by the separator. *)
Theorem normpath_of_walk_path dirs fname :
  Forall (fun d => is_entry d = true) dirs ->
  is_entry fname = true ->
  OsPath.normpath (walk_path dirs fname)
  = PyStr.join OsPath.sep (dirs ++ [fname]).
Proof. apply normpath_walk_path. Qed.

Lemma normpath_of_walk_path_witness :
  let dirs := ["publications"; "X"; "segments"; "s1"] in
  Forall (fun d => is_entry d = true) dirs /\
  is_entry "dialogues.json" = true /\
  OsPath.normpath (walk_path dirs "dialogues.json")
  = "publications/X/segments/s1/dialogues.json".
Proof.
  cbv zeta.
  assert (H : Forall (fun d => is_entry d = true)
                ["publications"; "X"; "segments"; "s1"])
    by (repeat constructor).
  split; [exact H|]. split; [reflexivity|].
  apply (normpath_of_walk_path ["publications"; "X"; "segments"; "s1"]
           "dialogues.json"); [exact H | reflexivity].
Defined.

(** X15: For the path the walk builds for a file, [is_recent] holds exactly when
    the file is named [recent.json] and the directory holding it has a name
    that ends in [publications]: the name [publications] itself, or a longer
    one such as [mypublications]; a [recent.json] directly in the working
    directory never passes. *)
Theorem recent_test_on_walk_paths dirs fname :
  Forall (fun d => is_entry d = true) dirs ->
  is_entry fname = true ->
  is_recent (walk_path dirs fname) = true <->
  fname = "recent.json" /\
  exists ds d, dirs = ds ++ [d] /\ PyStr.endswith d "publications" = true.
Proof. apply is_recent_walk_path. Qed.

Lemma recent_test_on_walk_paths_witness :
  let dirs := ["site"; "old-publications"] in
  Forall (fun d => is_entry d = true) dirs /\
  is_entry "recent.json" = true /\
  (is_recent (walk_path dirs "recent.json") = true <->
   "recent.json" = "recent.json" /\
   exists ds d, dirs = ds ++ [d] /\ PyStr.endswith d "publications" = true).
Proof.
  cbv zeta.
  assert (H : Forall (fun d => is_entry d = true) ["site"; "old-publications"])
    by (repeat constructor).
  split; [exact H|]. split; [reflexivity|].
  apply (recent_test_on_walk_paths ["site"; "old-publications"] "recent.json");
    [exact H | reflexivity].
Defined.

(** ** Files that are no manifest, dialogues file or recent file *)

(** X16: A parsed file the walk reaches under a name other than [manifest.json],
    [dialogues.json] and [recent.json] gets at most one diagnostic, and that
    one is the warning of the last branch: it is emitted exactly when some
    directory on the way is named [publications] and the document is an
    object for which the identifier lookup gives [None].  A document that is
    no object is accepted as it is, and nothing is raised. *)
Theorem other_files_only_warned
    (repr_str : string -> string) dirs fname data errors :
  Forall (fun d => is_entry d = true) dirs ->
  is_entry fname = true ->
  fname <> "manifest.json" ->
  fname <> "dialogues.json" ->
  fname <> "recent.json" ->
  validate repr_str (walk_path dirs fname) data errors =
  Ok tt (errors ++
         if existsb (String.eqb "publications") dirs
            && (isinstance_dict data && is_None (get_identifier_from data))
         then [GenericMissingIdentifier (walk_path dirs fname)] else []).
Proof.
  intros Hdirs Hf Hm Hd Hr.
  destruct (Forall_entry_free dirs Hdirs) as [_ Hnames].
  destruct (is_entry_inv fname Hf) as [_ [Hff _]].
  destruct (walk_path_classes dirs fname Hnames Hff) as [Em [Ed Ep]].
  apply String.eqb_neq in Hm, Hd. rewrite Hm in Em. rewrite Hd in Ed.
  cbn [andb] in Em, Ed.
  assert (Er : is_recent (walk_path dirs fname) = false).
  { destruct (is_recent (walk_path dirs fname)) eqn:E; [|reflexivity].
    apply is_recent_walk_path in E; [|assumption|assumption].
    destruct E as [E _]. congruence. }
  unfold validate. rewrite Em, Ed, Er, Ep.
  destruct (existsb (String.eqb "publications") dirs); cbn [andb].
  - apply check_generic_result.
  - unfold ret. now rewrite app_nil_r.
Qed.

Lemma other_files_only_warned_witness :
  let dirs := ["publications"; "X"] in
  Forall (fun d => is_entry d = true) dirs /\
  is_entry "cover.json" = true /\
  "cover.json" <> "manifest.json" /\
  "cover.json" <> "dialogues.json" /\
  "cover.json" <> "recent.json" /\
  validate repr_plain (walk_path dirs "cover.json")
    (JObject [("id", JNull)]) []
  = Ok tt [GenericMissingIdentifier "./publications/X/cover.json"].
Proof.
  cbv zeta.
  assert (H : Forall (fun d => is_entry d = true) ["publications"; "X"])
    by (repeat constructor).
  split; [exact H|]. split; [reflexivity|].
  repeat (split; [discriminate|]).
  apply (other_files_only_warned repr_plain ["publications"; "X"] "cover.json"
           (JObject [("id", JNull)]) []);
    first [exact H | reflexivity | discriminate].
Defined.

(** ** When the lookups give [None] *)

Lemma first_key_value_not_dict keys obj :
  isinstance_dict obj = false -> first_key_value keys obj = JNull.
Proof.
  intros H. induction keys as [|k keys IH]; simpl; [reflexivity|].
  now rewrite H.
Qed.

Lemma first_key_value_skip before k after obj :
  isinstance_dict obj = true ->
  Forall (fun k' => dict_contains k' obj = false) before ->
  dict_contains k obj = true ->
  first_key_value (before ++ k :: after) obj = dict_get k obj.
Proof.
  intros Hd Hb Hk. induction Hb as [|k0 before H0 Hb IH];
    cbn [app first_key_value]; rewrite Hd; cbn [andb].
  - now rewrite Hk.
  - now rewrite H0.
Qed.

Lemma first_key_value_none keys obj :
  first_key_value keys obj = JNull <->
  isinstance_dict obj = false \/
  (forall k, In k keys -> dict_contains k obj = false) \/
  (exists before k after,
      keys = before ++ k :: after /\
      Forall (fun k' => dict_contains k' obj = false) before /\
      dict_contains k obj = true /\
      dict_get k obj = JNull).
Proof.
  split.
  - intros H. destruct obj as [| b | z | r | s | items | members];
      try (now left). right.
    destruct (existsb (fun k => dict_contains k (JObject members)) keys) eqn:E.
    + right. apply existsb_exists in E.
      destruct (first_key_value_present keys members E)
        as [before [k [after [Hk [Hb [Hc Hv]]]]]].
      exists before, k, after. repeat split; auto. congruence.
    + left. intros k Hk.
      destruct (dict_contains k (JObject members)) eqn:Ek; [|reflexivity].
      assert (existsb (fun k => dict_contains k (JObject members)) keys = true)
        by (apply existsb_exists; eauto).
      congruence.
  - intros [H | [H | [before [k [after [-> [Hb [Hc Hv]]]]]]]].
    + now apply first_key_value_not_dict.
    + now apply first_key_value_absent.
    + rewrite first_key_value_skip; auto.
      destruct obj; try discriminate; reflexivity.
Qed.

(** X17: [get_identifier_from] and [get_author_from] give [None] in exactly
    three cases: the value looked into is no [dict]; it holds none of the
    candidate keys; or the first candidate key it holds, in the order of the
    lookup, has value [null], whatever later candidates hold. *)
Theorem lookups_give_none_exactly_when obj :
  (get_identifier_from obj = JNull <->
   isinstance_dict obj = false \/
   (forall k, In k identifier_keys -> dict_contains k obj = false) \/
   (exists before k after,
       identifier_keys = before ++ k :: after /\
       Forall (fun k' => dict_contains k' obj = false) before /\
       dict_contains k obj = true /\
       dict_get k obj = JNull)) /\
  (get_author_from obj = JNull <->
   isinstance_dict obj = false \/
   (forall k, In k author_keys -> dict_contains k obj = false) \/
   (exists before k after,
       author_keys = before ++ k :: after /\
       Forall (fun k' => dict_contains k' obj = false) before /\
       dict_contains k obj = true /\
       dict_get k obj = JNull)).
Proof. split; apply first_key_value_none. Qed.

(** A later candidate does not stand in for an earlier one that is [null]. *)
Example lookup_stops_at_first_key :
  get_identifier_from
    (JObject [("id", JString "X"); ("identifier", JNull)]) = JNull /\
  get_author_from
    (JObject [("author_names", JArray [JString "A"]); ("author", JNull)])
    = JNull /\
  get_author_from
    (JObject [("author_names", JArray [JString "A"]);
              ("author_name", JString "B")]) = JString "B".
Proof. repeat split; reflexivity. Qed.
